(** * DeepSparse pipelines: YOLO object detection and transformers input assembly

    A shallow embedding of [src/deepsparse/yolo/pipelines.py] (class
    [YOLOPipeline]) and of [TransformersPipeline.tokens_to_engine_input]
    from [src/deepsparse/transformers/pipelines/pipeline.py].

    Python exceptions are values of [Py.exn] carried by the error monad
    [Py.result]; dictionaries are [gmap]s; numpy arrays are strided views
    over a flat buffer ([Np.ndarray]); 32-bit floats follow IEEE 754 through
    [SpecFloat] at precision 24. *)

From Stdlib Require Import ZArith List Bool Lia.
From Stdlib Require Import Floats.SpecFloat.
From stdpp Require Import base option list strings gmap pretty.

Open Scope Z_scope.

(** ** Python values, exceptions and the error monad *)
Module Py.

(** The messages of the [ValueError]s the two source files and numpy raise. *)
Inductive message :=
| UnknownClassNames (class_names : string)
| ClassNamesMustBe
| ExpectedArrays (expected received : list string)
| NeedAtLeastOneArray
| SameShapeRequired
| InhomogeneousShape.

Inductive exn :=
| ValueError (m : message)
| KeyError (key : string)
| IndexError
| TypeError
| AttributeError
| AxisError
| Cv2Error
| OSError (path : string)
| JSONDecodeError
| InvalidInputError (index : nat)
| InvalidConfigurationError
| EngineContractError.

Inductive result (A : Type) :=
| Ok (a : A)
| Raise (e : exn).
Arguments Ok {A} a.
Arguments Raise {A} e.

#[global] Instance result_ret : MRet result := @Ok.
#[global] Instance result_bind : MBind result := fun A B f m =>
  match m with
  | Ok a => f a
  | Raise e => Raise e
  end.

#[global] Instance result_fmap : FMap result := fun A B f m =>
  match m with
  | Ok a => Ok (f a)
  | Raise e => Raise e
  end.

Definition raises {A} (m : result A) : bool :=
  match m with Ok _ => false | Raise _ => true end.

(** [l[i]] for a non-negative [i]. *)
Definition getitem {A} (l : list A) (i : nat) : result A :=
  match l !! i with
  | Some x => Ok x
  | None => Raise IndexError
  end.

(** [d[k]] on a [dict] with string keys. *)
Definition dict_getitem {A} (d : gmap string A) (k : string) : result A :=
  match d !! k with
  | Some x => Ok x
  | None => Raise (KeyError k)
  end.

(** A list built element by element, by a comprehension or by a [for]
    loop that appends: the elements are evaluated left to right and the
    first exception ends the whole. *)
Fixpoint traverse {A B} (f : A -> result B) (l : list A) : result (list B) :=
  match l with
  | [] => Ok []
  | x :: l' =>
      y ← f x;
      ys ← traverse f l';
      Ok (y :: ys)
  end.

(** [enumerate(l)]. *)
Definition enumerate {A} (l : list A) : list (nat * A) :=
  zip (seq 0 (length l)) l.

(** [d.get(k, dflt)]. *)
Definition dict_get {A} (d : gmap string A) (k : string) (dflt : A) : A :=
  default dflt (d !! k).

(** Python numbers: [int] and [float] (IEEE 754 binary64). *)
Inductive number :=
| Int (z : Z)
| Float (f : spec_float).

(** A number or a (nested) [list] of numbers. *)
#[warnings="-register-all"]
Inductive pylist :=
| PNum (x : number)
| PList (l : list pylist).

(** [str(n)] for an integer. *)
Definition str (n : Z) : string := pretty n.

(** [s.endswith(suffix)]. *)
Definition endswith (s suffix : string) : bool :=
  let n := String.length s in
  let k := String.length suffix in
  if (k <=? n)%nat then String.eqb (String.substring (n - k) k s) suffix else false.

End Py.
Import Py.

(** ** The ONNX model metadata read by the pipelines *)
Module Onnx.

(** [onnx.TensorProto.UINT8]. *)
Definition UINT8 : Z := 2.

Record Dimension := { dim_value : Z }.

(** A graph input or output: [type.tensor_type.elem_type] and
    [type.tensor_type.shape.dim]. *)
Record ValueInfo := {
  elem_type : Z;
  dim : list Dimension
}.

Record Graph := {
  input : list ValueInfo;
  output : list ValueInfo
}.

Record Model := { graph : Graph }.

End Onnx.

(** ** numpy arrays *)
Module Np.

(** The element types met by the pipeline: [uint8] from [cv2.imread],
    [int64] and [float64] from [numpy.asarray] on Python numbers, [int8]
    and [float32] from the cast of [process_inputs], and [int16], the
    common type of [uint8] and [int8]. *)
Inductive dtype := uint8 | int8 | int16 | int64 | float32 | float64.

#[global] Instance dtype_eq_dec : EqDecision dtype.
Proof. solve_decision. Defined.

Definition is_float (dt : dtype) : bool :=
  match dt with float32 | float64 => true | _ => false end.

(** Width and signedness of the integer types; precision and [emax] of
    the floating-point types. *)
Definition bits (dt : dtype) : Z :=
  match dt with
  | uint8 | int8 => 8
  | int16 => 16
  | float32 => 32
  | int64 | float64 => 64
  end.

Definition signed (dt : dtype) : bool :=
  match dt with uint8 => false | _ => true end.

Definition prec (dt : dtype) : Z :=
  match dt with float32 => 24 | _ => 53 end.

Definition emax (dt : dtype) : Z :=
  match dt with float32 => 128 | _ => 1024 end.

(** Two's complement wrap-around of an integer into the range of [dt]. *)
Definition wrap (dt : dtype) (z : Z) : Z :=
  let m := 2 ^ bits dt in
  if signed dt then (z + m / 2) mod m - m / 2 else z mod m.

Definition in_range (dt : dtype) (z : Z) : bool :=
  Z.eqb (wrap dt z) z.

(** Round a floating-point value to the format of [dt], to nearest even. *)
Definition round_float (dt : dtype) (f : spec_float) : spec_float :=
  match f with
  | S754_finite s m e => binary_round (prec dt) (emax dt) s m e
  | _ => f
  end.

Definition of_int (dt : dtype) (z : Z) : spec_float :=
  binary_normalize (prec dt) (emax dt) z 0 false.

(** Truncation toward zero of a finite value. *)
Definition trunc (f : spec_float) : option Z :=
  match f with
  | S754_zero _ => Some 0
  | S754_finite s m e =>
      let q := if 0 <=? e then Z.pos m * 2 ^ e else Z.pos m / 2 ^ (- e) in
      Some (if s then - q else q)
  | _ => None
  end.

(** What the C conversion from a floating-point value to an integer type
    yields where the C standard leaves it undefined (not a number,
    infinite, or truncated value out of the target's range): it depends
    on the processor. *)
Class CConversion := float_to_int_undefined : dtype -> spec_float -> Z.

Section Cast.
Context `{CConversion}.

(** The conversion of one element in [a.astype(dt)], to an integer type
    and to a floating-point type. *)
Definition int_of (dt : dtype) (x : number) : Z :=
  match x with
  | Int z => wrap dt z
  | Float f =>
      match trunc f with
      | Some z =>
          if in_range dt z then z
          else wrap dt (float_to_int_undefined dt f)
      | None => wrap dt (float_to_int_undefined dt f)
      end
  end.

Definition float_of (dt : dtype) (x : number) : spec_float :=
  match x with
  | Int z => of_int dt z
  | Float f => round_float dt f
  end.

Definition astype (dt : dtype) (x : number) : number :=
  if is_float dt then Float (float_of dt x) else Int (int_of dt x).
End Cast.

(** [numpy.promote_types] on the element types above. *)
Definition promote_types (a b : dtype) : dtype :=
  match a, b with
  | float64, _ | _, float64 => float64
  | float32, int64 | int64, float32 => float64
  | float32, _ | _, float32 => float32
  | int64, _ | _, int64 => int64
  | uint8, uint8 => uint8
  | int8, int8 => int8
  | _, _ => int16
  end.

(** An array is a view: a shape, one stride per axis (in elements, can be
    negative) and an offset into a flat buffer. *)
Record ndarray := {
  dtype_of : dtype;
  shape : list nat;
  strides : list Z;
  offset : Z;
  data : list number
}.

Definition ndim (a : ndarray) : nat := length (shape a).

Definition size_of (shp : list nat) : nat := fold_right Nat.mul 1%nat shp.

Fixpoint in_bounds (shp idx : list nat) : bool :=
  match shp, idx with
  | [], [] => true
  | n :: shp', i :: idx' => (i <? n)%nat && in_bounds shp' idx'
  | _, _ => false
  end.

Fixpoint dot (idx : list nat) (strd : list Z) : Z :=
  match idx, strd with
  | i :: idx', s :: strd' => Z.of_nat i * s + dot idx' strd'
  | _, _ => 0
  end.

Definition position (a : ndarray) (idx : list nat) : Z :=
  offset a + dot idx (strides a).

Definition buffer_at (a : ndarray) (pos : Z) : option number :=
  if 0 <=? pos then data a !! Z.to_nat pos else None.

(** [a[i0, ..., ik]] with one non-negative index per axis; [None] stands
    for [IndexError]. *)
Definition item (a : ndarray) (idx : list nat) : option number :=
  if in_bounds (shape a) idx then buffer_at a (position a idx) else None.

(** Strides of a C-contiguous array of the given shape. *)
Fixpoint c_strides (shp : list nat) : list Z :=
  match shp with
  | [] => []
  | _ :: shp' => Z.of_nat (size_of shp') :: c_strides shp'
  end.

(** All the indices of a shape in C (row-major) order. *)
Fixpoint indices (shp : list nat) : list (list nat) :=
  match shp with
  | [] => [[]]
  | n :: shp' => i ← seq 0 n; cons i <$> indices shp'
  end.

(** A view lies within its buffer. *)
Definition wf (a : ndarray) : bool :=
  (length (strides a) =? length (shape a))%nat &&
  forallb (fun idx => (0 <=? position a idx) &&
                      (position a idx <? Z.of_nat (length (data a))))
          (indices (shape a)).

(** The elements in C order. The default is never used on a view that
    lies within its buffer. *)
Definition ravel (a : ndarray) : list number :=
  (fun idx => default (Int 0) (item a idx)) <$> indices (shape a).

Definition c_array (dt : dtype) (shp : list nat) (xs : list number) : ndarray :=
  {| dtype_of := dt; shape := shp; strides := c_strides shp;
     offset := 0; data := xs |}.

(** [normalize_axis_index(axis, ndim)]. *)
Definition normalize_axis_index (axis : Z) (nd : nat) : result nat :=
  if (- Z.of_nat nd <=? axis) && (axis <? Z.of_nat nd)
  then Ok (Z.to_nat (if axis <? 0 then axis + Z.of_nat nd else axis))
  else Raise AxisError.

(** [a.transpose(order)]: a view with permuted shape and strides. *)
Definition transpose (a : ndarray) (order : list nat) : ndarray :=
  {| dtype_of := dtype_of a;
     shape := (fun k => nth k (shape a) 0%nat) <$> order;
     strides := (fun k => nth k (strides a) 0) <$> order;
     offset := offset a;
     data := data a |}.

(** [numpy.moveaxis(a, source, destination)] for one axis:
    [order = [n for n in range(a.ndim) if n != source]],
    [order.insert(destination, source)], [a.transpose(order)]. *)
Definition moveaxis (a : ndarray) (source destination : Z) : result ndarray :=
  src ← normalize_axis_index source (ndim a);
  dst ← normalize_axis_index destination (ndim a);
  let order := filter (fun n => n ≠ src) (seq 0 (ndim a)) in
  let order := take dst order ++ src :: drop dst order in
  Ok (transpose a order).

Section Copies.
Context `{CConversion}.

(** [numpy.stack(arrays, axis=0)]: a new C-contiguous array of the
    common element type. *)
Definition stack (arrays : list ndarray) : result ndarray :=
  match arrays with
  | [] => Raise (ValueError NeedAtLeastOneArray)
  | a0 :: rest =>
      if forallb (fun a => bool_decide (shape a = shape a0)) rest then
        let dt := foldl promote_types (dtype_of a0) (dtype_of <$> rest) in
        Ok (c_array dt (length arrays :: shape a0)
              (a ← arrays; astype dt <$> ravel a))
      else Raise (ValueError SameShapeRequired)
  end.

(** [numpy.ascontiguousarray(a, dtype=dt)]: at least one-dimensional,
    C-contiguous, of element type [dt]. *)
Definition ascontiguousarray (a : ndarray) (dt : dtype) : ndarray :=
  c_array dt (if (ndim a =? 0)%nat then [1%nat] else shape a)
          (astype dt <$> ravel a).

(** The quotient of one element by a Python integer [d], computed in the
    format of [dt]. *)
Definition true_divide (dt : dtype) (d : Z) (x : number) : number :=
  match x with
  | Float f => Float (SFdiv (prec dt) (emax dt) f (of_int dt d))
  | Int z => Float (SFdiv (prec dt) (emax dt) (of_int dt z) (of_int dt d))
  end.

(** [a /= d] for a Python integer [d]: in-place true division, defined
    on floating-point arrays only. *)
Definition itruediv (a : ndarray) (d : Z) : result ndarray :=
  if is_float (dtype_of a) then
    Ok {| dtype_of := dtype_of a; shape := shape a; strides := strides a;
          offset := offset a;
          data := true_divide (dtype_of a) d <$> data a |}
  else Raise TypeError.

(** The shape numpy discovers in a nested list; lists of unequal
    shapes are refused. *)
Fixpoint discover_shape (v : pylist) : result (list nat) :=
  match v with
  | PNum _ => Ok []
  | PList l =>
      shapes ← (fix go (l : list pylist) : result (list (list nat)) :=
                  match l with
                  | [] => Ok []
                  | x :: l' =>
                      s ← discover_shape x; ss ← go l'; Ok (s :: ss)
                  end) l;
      match shapes with
      | [] => Ok [0%nat]
      | s :: ss =>
          if forallb (fun s' => bool_decide (s' = s)) ss
          then Ok (length l :: s)
          else Raise (ValueError InhomogeneousShape)
      end
  end.

Fixpoint leaves (v : pylist) : list number :=
  match v with
  | PNum x => [x]
  | PList l => (fix go (l : list pylist) : list number :=
                  match l with
                  | [] => []
                  | x :: l' => leaves x ++ go l'
                  end) l
  end.

Definition is_int (x : number) : bool :=
  match x with Int _ => true | Float _ => false end.

(** [numpy.asarray(v)] on a nested list of Python numbers: [int64]
    when every leaf is an [int] (taken within the [int64] range),
    [float64] otherwise and when there is no leaf. *)
Definition asarray (v : pylist) : result ndarray :=
  shp ← discover_shape v;
  let xs := leaves v in
  let dt := if forallb is_int xs && negb (bool_decide (xs = []))
            then int64 else float64 in
  Ok (c_array dt shp (astype dt <$> xs)).
End Copies.

(** A two-dimensional array given by its rows, the form of the per-image
    detections: one row per detection, [ncols] numbers per row. *)
Record array2d := {
  ncols : nat;
  rows : list (list number)
}.

Definition wf2d (a : array2d) : bool :=
  forallb (fun r => (length r =? ncols a)%nat) (rows a).

(** [a.tolist()]. *)
Definition tolist (a : array2d) : list (list number) := rows a.

(** [a[:, lo:hi]]: a slice is clipped to the axis, never out of range. *)
Definition columns (a : array2d) (lo hi : nat) : array2d :=
  {| ncols := (Nat.min hi (ncols a) - lo)%nat;
     rows := (fun r => take (hi - lo) (drop lo r)) <$> rows a |}.

(** [a[:, j]]: the one-dimensional array of column [j]. *)
Definition column (a : array2d) (j : nat) : result (list number) :=
  if (j <? ncols a)%nat
  then Ok ((fun r => default (Int 0) (r !! j)) <$> rows a)
  else Raise IndexError.

End Np.

(** ** What the pipeline takes from outside [src/] *)
Module Host.

(** The value handed to [class_names]: a [str], a [dict], a [list], or
    anything else ([None], a number, ...). [json.load] yields one too. *)
Inductive class_names_value :=
| CNStr (s : string)
| CNDict (d : gmap string string)
| CNList (l : list string)
| CNOther.

(** The [cv2] module. [imread] returns [None] for a file it cannot read. *)
Record Cv2 := {
  imread : string -> option Np.ndarray;
  resize_image : Np.ndarray -> Z * Z -> result Np.ndarray
}.

(** [cv2.resize(src, dsize=dsize)]: an empty source is refused with
    [cv2.error]. *)
Definition resize (cv : Cv2) (src : option Np.ndarray) (dsize : Z * Z)
  : result Np.ndarray :=
  match src with
  | None => Raise Cv2Error
  | Some img => resize_image cv img dsize
  end.

(** The file system as [json.load(open(path))] sees it, the module-level
    [cv2] ([None] when its import failed), and the names imported from
    [deepsparse.yolo.utils]: [COCO_CLASSES], the class [YoloPostprocessor]
    with its constructor and its method [pre_nms_postprocess], and
    [postprocess_nms], which returns the detections of each image as an
    array of rows [x1, y1, x2, y2, score, class_id]. *)
Class Host := {
  json_load : string -> result class_names_value;
  cv2 : option Cv2;
  COCO_CLASSES : class_names_value;
  YoloPostprocessor : Type;
  YoloPostprocessor_new : Z * Z -> option string -> result YoloPostprocessor;
  pre_nms_postprocess :
    YoloPostprocessor -> list Np.ndarray -> result Np.ndarray;
  postprocess_nms :
    Np.ndarray -> spec_float -> spec_float -> result (list Np.array2d)
}.

End Host.
Import Host.

(** ** [deepsparse.yolo.pipelines.YOLOPipeline] *)
Module YOLOPipeline.

(** An element of [inputs.images]. *)
Inductive image :=
| ImgList (l : list pylist)
| ImgPath (path : string)
| ImgArray (a : Np.ndarray).

Record YOLOInput := {
  images : list image;
  iou_thres : spec_float;
  conf_thres : spec_float
}.

Record YOLOOutput := {
  predictions : list (list (list number));
  boxes : list (list (list number));
  scores : list (list number);
  labels : list (list string)
}.

(** The float literals [0.25] and [0.45]. *)
Definition float_0_25 : spec_float :=
  Eval vm_compute in SFdiv 53 1024 (Np.of_int Np.float64 25) (Np.of_int Np.float64 100).
Definition float_0_45 : spec_float :=
  Eval vm_compute in SFdiv 53 1024 (Np.of_int Np.float64 45) (Np.of_int Np.float64 100).

Section Pipeline.
Context `{Np.CConversion} `{Host}.

(** The attributes [__init__] sets. [postprocessor] is [None] or an
    instance of [YoloPostprocessor]. *)
Record t := {
  _class_names : gmap string string;
  has_postprocessing : bool;
  input_shape : Z * Z;
  is_quantized : bool;
  postprocessor : option YoloPostprocessor;
  _model_config : option string
}.

(** [YOLOPipeline.model_has_postprocessing]. The generator handed to
    [all] reads [outputs_num_dims[0]] once per element of
    [outputs_num_dims[1:]], hence never on an empty list. *)
Definition model_has_postprocessing (loaded_onnx_model : Onnx.Model) : bool :=
  let outputs_num_dims :=
    map (fun output => length (Onnx.dim output))
        (Onnx.output (Onnx.graph loaded_onnx_model)) in
  if (length outputs_num_dims =? 1)%nat then true
  else forallb (fun num_dims => (nth 0 outputs_num_dims 0 <? num_dims)%nat)
               (skipn 1 outputs_num_dims).

(** [YOLOPipeline.model_is_quantized]. *)
Definition model_is_quantized (onnx_model : Onnx.Model) : result bool :=
  input0 ← getitem (Onnx.input (Onnx.graph onnx_model)) 0;
  Ok (Onnx.elem_type input0 =? Onnx.UINT8).

(** [YOLOPipeline._infer_image_shape]. *)
Definition _infer_image_shape (onnx_model : Onnx.Model) : result (Z * Z) :=
  input_tensor ← getitem (Onnx.input (Onnx.graph onnx_model)) 0;
  d2 ← getitem (Onnx.dim input_tensor) 2;
  d3 ← getitem (Onnx.dim input_tensor) 3;
  Ok (Onnx.dim_value d2, Onnx.dim_value d3).

(** The dict comprehension
    [{str(index): class_name for index, class_name in enumerate(class_names)}]. *)
Definition class_names_of_list (class_names : list string) : gmap string string :=
  foldl (fun d '(index, class_name) => <[Py.str (Z.of_nat index) := class_name]> d)
        ∅ (enumerate class_names).

(** [YOLOPipeline.__init__], lines 74 to 92: the resolution of
    [class_names]. *)
Definition resolve_class_names (class_names : class_names_value)
  : result (gmap string string) :=
  class_names ←
    match class_names with
    | CNStr s =>
        if endswith s ".json" then json_load s
        else if String.eqb s "coco" then Ok COCO_CLASSES
        else Raise (ValueError (UnknownClassNames s))
    | _ => Ok class_names
    end;
  match class_names with
  | CNDict d => Ok d
  | CNList l => Ok (class_names_of_list l)
  | _ => Raise (ValueError ClassNamesMustBe)
  end.

(** [YOLOPipeline.__init__]. [onnx_model] is what
    [onnx.load(self.onnx_file_path)] returned. *)
Definition __init__ (class_names : class_names_value)
    (model_config : option string) (onnx_model : Onnx.Model) : result t :=
  _class_names ← resolve_class_names class_names;
  let has_postprocessing := model_has_postprocessing onnx_model in
  input_shape ← _infer_image_shape onnx_model;
  is_quantized ← model_is_quantized onnx_model;
  postprocessor ←
    (if has_postprocessing then Ok None
     else Some <$> YoloPostprocessor_new input_shape model_config);
  Ok {| _class_names := _class_names;
        has_postprocessing := has_postprocessing;
        input_shape := input_shape;
        is_quantized := is_quantized;
        postprocessor := postprocessor;
        _model_config := model_config |}.

(** [YOLOPipeline._make_channels_first]. [image.shape[-1]] raises
    [IndexError] on an array without axes. *)
Definition _make_channels_first (image : Np.ndarray) : result Np.ndarray :=
  let is_single_image := (Np.ndim image =? 3)%nat in
  let is_batch := (Np.ndim image =? 4)%nat in
  match last (Np.shape image) with
  | None => Raise IndexError
  | Some channels =>
      if negb (channels =? 3)%nat then Ok image
      else if is_single_image then Np.moveaxis image (-1) 0
      else if is_batch then Np.moveaxis image (-1) 1
      else Ok image
  end.

(** [YOLOPipeline._make_batch]. *)
Definition _make_batch (image_batch : list Np.ndarray) : result Np.ndarray :=
  if (length image_batch =? 1)%nat then
    current_batch ← getitem image_batch 0;
    if (Np.ndim current_batch =? 4)%nat then Ok current_batch
    else Np.stack image_batch
  else Np.stack image_batch.

(** The body of the loop of [process_inputs] over [inputs.images]. *)
Definition load_image (self : t) (image : image) : result Np.ndarray :=
  image ←
    match image with
    | ImgList l => ImgArray <$> Np.asarray (PList l)
    | _ => Ok image
    end;
  image ←
    match image with
    | ImgPath path =>
        match cv2 with
        | None => Raise AttributeError
        | Some cv =>
            let image := imread cv path in
            ImgArray <$> resize cv image (input_shape self)
        end
    | _ => Ok image
    end;
  match image with
  | ImgArray a => _make_channels_first a
  | _ => Raise AttributeError
  end.

(** [YOLOPipeline.process_inputs]. *)
Definition process_inputs (self : t) (inputs : YOLOInput)
  : result (list Np.ndarray * gmap string spec_float) :=
  image_batch ← traverse (load_image self) (images inputs);
  image_batch ← _make_batch image_batch;
  let image_batch :=
    Np.ascontiguousarray image_batch
      (if is_quantized self then Np.int8 else Np.float32) in
  image_batch ←
    (if negb (is_quantized self) then Np.itruediv image_batch 255
     else Ok image_batch);
  let postprocessing_kwargs : gmap string spec_float :=
    <["conf_thres" := conf_thres inputs]>
      (<["iou_thres" := iou_thres inputs]> ∅) in
  Ok ([image_batch], postprocessing_kwargs).

(** The statements of one round of the loop of [process_engine_outputs]
    over [batch_output]. *)
Definition serialize_image (self : t) (image_output : Np.array2d)
  : result (list (list number) * list (list number) * list number * list string) :=
  let image_predictions := Np.tolist image_output in
  let image_boxes := Np.tolist (Np.columns image_output 0 4) in
  image_scores ← Np.column image_output 4;
  class_column ← Np.column image_output 5;
  image_labels ←
    traverse (fun class_ids => dict_getitem (_class_names self) (Py.str class_ids))
             (Np.int_of Np.int64 <$> class_column);
  Ok (image_predictions, image_boxes, image_scores, image_labels).

(** Lines 192 to 198 of [process_engine_outputs]: an instance of
    [YoloPostprocessor] is true, [None] is false. *)
Definition select_batch_output (self : t) (engine_outputs : list Np.ndarray)
  : result Np.ndarray :=
  match postprocessor self with
  | Some postprocessor => pre_nms_postprocess postprocessor engine_outputs
  | None => getitem engine_outputs 0
  end.

(** Lines 200 to 225 of [process_engine_outputs]: non-maximum suppression
    and the four lists of the output. *)
Definition serialize_batch (self : t) (kwargs : gmap string spec_float)
    (batch_output : Np.ndarray) : result YOLOOutput :=
  batch_output ←
    postprocess_nms batch_output
      (dict_get kwargs "iou_thres" float_0_25)
      (dict_get kwargs "conf_thres" float_0_45);
  per_image ← traverse (serialize_image self) batch_output;
  Ok {| predictions := (fun r => r.1.1.1) <$> per_image;
        boxes := (fun r => r.1.1.2) <$> per_image;
        scores := (fun r => r.1.2) <$> per_image;
        labels := (fun r => r.2) <$> per_image |}.

(** [YOLOPipeline.process_engine_outputs]. *)
Definition process_engine_outputs (self : t) (engine_outputs : list Np.ndarray)
    (kwargs : gmap string spec_float) : result YOLOOutput :=
  batch_output ← select_batch_output self engine_outputs;
  serialize_batch self kwargs batch_output.

End Pipeline.
End YOLOPipeline.

(** ** [deepsparse.transformers.pipelines.pipeline.TransformersPipeline] *)
Module TransformersPipeline.

(** The attributes the method below reads. [__init__] sets
    [onnx_input_names] to [None]; [setup_onnx_file_path] stores the names
    of the model's inputs. *)
Record t := {
  sequence_length : Z;
  default_model_name : string;
  onnx_input_names : option (list string)
}.

(** [TransformersPipeline.tokens_to_engine_input]. Iterating over [None]
    raises [TypeError]. *)
Definition tokens_to_engine_input {A} (self : t) (tokens : gmap string A)
  : result (list A) :=
  match onnx_input_names self with
  | None => Raise TypeError
  | Some names =>
      if negb (forallb (fun name => bool_decide (is_Some (tokens !! name))) names)
      then Raise (ValueError (ExpectedArrays names (map_to_list tokens).*1))
      else traverse (fun name => dict_getitem tokens name) names
  end.

End TransformersPipeline.

(** ** The flag in the words of the specification *)
Module Claimed.

Definition output_ranks (m : Onnx.Model) : list nat :=
  map (fun output => length (Onnx.dim output)) (Onnx.output (Onnx.graph m)).

(** "Single output tensor, or every output has rank at least the first
    output's rank." *)
Definition has_postprocessing (m : Onnx.Model) : Prop :=
  length (output_ranks m) = 1%nat \/
  Forall (fun r => (nth 0 (output_ranks m) 0 <= r)%nat) (output_ranks m).

End Claimed.

(** ** A sample host and sample models *)
Module Sample.

(** A processor whose out-of-range conversions yield the least 64-bit
    integer. *)
#[export] Instance conversion : Np.CConversion := fun _ _ => - 2 ^ 63.

(** A 1 x 2 image of three channels, as [cv2.imread] returns it. *)
Definition pixels : Np.ndarray :=
  Np.c_array Np.uint8 [1; 2; 3]%nat
    (Int <$> [0; 128; 255; 10; 20; 30]).

Definition cv : Cv2 := {|
  imread path := if String.eqb path "cat.png" then Some pixels else None;
  resize_image img dsize := Ok img
|}.

(** One detection of class 1 with score 0.5 for every image of the batch. *)
Definition detection : list number :=
  [Int 1; Int 2; Int 3; Int 4; Float (S754_finite false 1 (-1)); Float (S754_finite false 1 0)].

#[export] Instance host : Host := {|
  json_load path :=
    if String.eqb path "names.json" then Ok (CNList ["cat"; "dog"]%string)
    else Raise (OSError path);
  cv2 := Some cv;
  COCO_CLASSES := CNList ["person"; "bicycle"; "car"]%string;
  YoloPostprocessor := Z * Z;
  YoloPostprocessor_new image_size cfg := Ok image_size;
  pre_nms_postprocess postprocessor outputs := getitem outputs 1;
  postprocess_nms batch iou conf :=
    Ok (replicate (hd 0%nat (Np.shape batch))
          {| Np.ncols := 6; Np.rows := [detection] |})
|}.

Definition value_info (elem_type : Z) (dims : list Z) : Onnx.ValueInfo :=
  {| Onnx.elem_type := elem_type; Onnx.dim := Onnx.Build_Dimension <$> dims |}.

(** A float model with raw outputs: three outputs of rank 5. *)
Definition raw_model : Onnx.Model :=
  {| Onnx.graph :=
       {| Onnx.input := [value_info 1 [1; 3; 1; 2]];
          Onnx.output := [value_info 1 [1; 3; 20; 20; 85];
                          value_info 1 [1; 3; 40; 40; 85];
                          value_info 1 [1; 3; 80; 80; 85]] |} |}.

(** A quantized model with postprocessing inside: a first output of rank
    3, then the raw outputs of rank 5. *)
Definition quantized_model : Onnx.Model :=
  {| Onnx.graph :=
       {| Onnx.input := [value_info Onnx.UINT8 [1; 3; 1; 2]];
          Onnx.output := [value_info 1 [1; 25200; 85];
                          value_info 1 [1; 3; 80; 80; 85]] |} |}.

(** A model with two outputs of the same rank 3. *)
Definition same_rank_model : Onnx.Model :=
  {| Onnx.graph :=
       {| Onnx.input := [value_info 1 [1; 3; 1; 2]];
          Onnx.output := [value_info 1 [1; 10; 85];
                          value_info 1 [1; 20; 85]] |} |}.

(** A transformers pipeline after [setup_onnx_file_path], and the output
    of its tokenizer on one sentence. *)
Definition bert : TransformersPipeline.t :=
  {| TransformersPipeline.sequence_length := 128;
     TransformersPipeline.default_model_name := "bert-base-uncased";
     TransformersPipeline.onnx_input_names :=
       Some ["input_ids"; "attention_mask"]%string |}.

Definition tokens : gmap string (list Z) :=
  <["input_ids" := [101; 7592; 102]]> (<["attention_mask" := [1; 1; 1]]> ∅).

(** A model whose only output is the postprocessed one. *)
Definition single_output_model : Onnx.Model :=
  {| Onnx.graph :=
       {| Onnx.input := [value_info 1 [1; 3; 1; 2]];
          Onnx.output := [value_info 1 [1; 25200; 85]] |} |}.


(** Inputs with the default thresholds. *)
Definition inputs (images : list YOLOPipeline.image) : YOLOPipeline.YOLOInput :=
  {| YOLOPipeline.images := images;
     YOLOPipeline.iou_thres := YOLOPipeline.float_0_25;
     YOLOPipeline.conf_thres := YOLOPipeline.float_0_45 |}.

Definition names : gmap string string :=
  <["1" := "dog"]> (<["0" := "cat"]> ∅).

(** A host whose [postprocess_nms] returns, for one image, no detection
    in an array of five columns. *)
Definition narrow_host : Host := {|
  json_load path := Raise (OSError path);
  cv2 := Some cv;
  COCO_CLASSES := CNList ["person"; "bicycle"; "car"]%string;
  YoloPostprocessor := Z * Z;
  YoloPostprocessor_new image_size cfg := Ok image_size;
  pre_nms_postprocess postprocessor outputs := getitem outputs 1;
  postprocess_nms batch iou conf := Ok [ {| Np.ncols := 5; Np.rows := [] |} ]
|}.

(** A batch of one image of 1 x 2 pixels, channels last. *)
Definition pixel_batch : Np.ndarray :=
  Np.c_array Np.uint8 [1; 1; 2; 3]%nat
    (Int <$> [0; 128; 255; 10; 20; 30]).

End Sample.

(** ** Notions used in the statements below *)
Module Statements.
Import Np.

Section Statements.
Context `{CConversion} `{Host}.

(** The class name of a detection row, when its class id is a key. *)
Definition label_of (p : YOLOPipeline.t) (row : list number) (name : string) : Prop :=
  exists c, row !! 5%nat = Some c /\
            YOLOPipeline._class_names p !! Py.str (int_of int64 c) = Some name.

(** The arrays [postprocess_nms] returns are rectangular. *)
Definition rectangular_nms : Prop :=
  forall batch iou conf dets,
    postprocess_nms batch iou conf = Ok dets -> Forall (fun a => wf2d a = true) dets.

(** A rectangular array of at least six columns whose class ids are all
    keys of the class names. *)
Definition labelled (p : YOLOPipeline.t) (a : Np.array2d) : Prop :=
  wf2d a = true /\ (6 <= ncols a)%nat /\
  Forall (fun row => exists name, label_of p row name) (rows a).


End Statements.
End Statements.
Import Statements.

(** * Properties *)

Import Np.

(** ** The error monad *)
Lemma bind_Ok_inv {A B} (m : result A) (f : A -> result B) (b : B) :
  m ≫= f = Ok b -> exists a, m = Ok a /\ f a = Ok b.
Proof. destruct m as [a|e]; cbn; intros Hm; [eauto | discriminate]. Qed.

Lemma bind_Raise_inv {A B} (m : result A) (f : A -> result B) (e : exn) :
  m ≫= f = Raise e -> m = Raise e \/ exists a, m = Ok a /\ f a = Raise e.
Proof. destruct m as [a|e']; cbn; intros Hm; [right; eauto | left; congruence]. Qed.

Lemma dict_getitem_Ok {A} (d : gmap string A) k v :
  dict_getitem d k = Ok v <-> d !! k = Some v.
Proof.
  unfold dict_getitem. destruct (d !! k); split; intros Heq;
    first [by injection Heq as -> | discriminate].
Qed.

Lemma dict_getitem_Raise {A} (d : gmap string A) k e :
  dict_getitem d k = Raise e <-> d !! k = None /\ e = KeyError k.
Proof.
  unfold dict_getitem. destruct (d !! k); split.
  - discriminate.
  - by intros [? _].
  - intros Heq. by injection Heq as <-.
  - by intros [_ ->].
Qed.

Section Traverse.
Context {A B : Type}.

Lemma traverse_Ok_Forall2 (f : A -> result B) (l : list A) (k : list B) :
  traverse f l = Ok k <-> Forall2 (fun x y => f x = Ok y) l k.
Proof.
  revert k. induction l as [|x l IH]; intros k; simpl.
  - split; [intros [= <-]; constructor | inversion 1; reflexivity].
  - split.
    + intros Hb. apply bind_Ok_inv in Hb as (y & Hy & Hb).
      apply bind_Ok_inv in Hb as (ys & Hys & [= <-]).
      constructor; [assumption | by apply IH].
    + inversion 1 as [|? y ? ys Hy Hys]; subst.
      rewrite Hy. simpl. apply IH in Hys. rewrite Hys. reflexivity.
Qed.

(** The first element on which [f] raises decides the exception. *)
Lemma traverse_Raise_first (f : A -> result B) (l1 l2 : list A) x e :
  Forall (fun y => raises (f y) = false) l1 ->
  f x = Raise e ->
  traverse f (l1 ++ x :: l2) = Raise e.
Proof.
  intros HF Hx. induction HF as [|y l1 Hy _ IH]; simpl.
  - rewrite Hx. reflexivity.
  - destruct (f y); [|discriminate]. simpl. rewrite IH. reflexivity.
Qed.

Lemma traverse_Ok_all (f : A -> result B) (l : list A) :
  Forall (fun y => raises (f y) = false) l ->
  exists k, traverse f l = Ok k.
Proof.
  induction 1 as [|y l Hy _ [k IH]]; simpl; [eauto|].
  destruct (f y) as [b|]; [|discriminate]. simpl. rewrite IH. simpl. eauto.
Qed.

(** When [f] raises on some element, the whole raises what [f] raises on
    one of them. *)
Lemma traverse_Raise_exists (f : A -> result B) (l : list A) :
  (exists x, x ∈ l /\ raises (f x) = true) ->
  exists x e, x ∈ l /\ f x = Raise e /\ traverse f l = Raise e.
Proof.
  induction l as [|y l IH]; intros (x & Hin & Hx).
  - by apply elem_of_nil in Hin.
  - simpl. destruct (f y) as [b|e] eqn:Hy.
    + destruct IH as (x' & e & Hin' & Hx' & Hl).
      { apply elem_of_cons in Hin as [->|Hin]; [|eauto].
        rewrite Hy in Hx. discriminate. }
      exists x', e. split; [by right|]. split; [done|].
      cbn. by rewrite Hl.
    + exists y, e. split; [left | done].
Qed.

Lemma traverse_Raise_inv (f : A -> result B) (l : list A) e :
  traverse f l = Raise e -> exists x, x ∈ l /\ f x = Raise e.
Proof.
  induction l as [|y l IH]; simpl; [discriminate|].
  destruct (f y) as [b|e'] eqn:Hy; cbn.
  - destruct (traverse f l) as [k|e'']; cbn; [discriminate|].
    intros [= <-]. destruct IH as (x & Hin & Hx); [done|].
    exists x. split; [by right | done].
  - intros [= <-]. exists y. split; [left | done].
Qed.

End Traverse.

(** ** The postprocessing flag *)
Section Flag.
Context `{CConversion} `{Host}.

Lemma model_has_postprocessing_spec (m : Onnx.Model) :
  YOLOPipeline.model_has_postprocessing m = true <->
  length (Claimed.output_ranks m) = 1%nat \/
  Forall (fun r => (nth 0 (Claimed.output_ranks m) 0 < r)%nat)
         (drop 1 (Claimed.output_ranks m)).
Proof.
  unfold YOLOPipeline.model_has_postprocessing.
  fold (Claimed.output_ranks m).
  destruct (Nat.eqb_spec (length (Claimed.output_ranks m)) 1) as [Hlen|Hlen].
  - split; auto.
  - rewrite forallb_forall, Forall_forall. split.
    + intros Hall. right. intros r Hr. apply Nat.ltb_lt, Hall.
      by apply list_elem_of_In.
    + intros [Hone|Hall]; [contradiction|].
      intros r Hr. apply Nat.ltb_lt, Hall. by apply list_elem_of_In.
Qed.

Lemma init_has_postprocessing cn cfg m (p : YOLOPipeline.t) :
  YOLOPipeline.__init__ cn cfg m = Ok p ->
  YOLOPipeline.has_postprocessing p = YOLOPipeline.model_has_postprocessing m.
Proof.
  unfold YOLOPipeline.__init__. intros Hinit.
  apply bind_Ok_inv in Hinit as (names & _ & Hinit).
  apply bind_Ok_inv in Hinit as (shp & _ & Hinit).
  apply bind_Ok_inv in Hinit as (q & _ & Hinit).
  apply bind_Ok_inv in Hinit as (pp & _ & Hinit).
  by injection Hinit as <-.
Qed.

(** C1, as the code has it: the flag stored at construction is true if
    and only if the model declares exactly one output, or every output
    after the first has a rank strictly greater than the first output's. *)
Theorem has_postprocessing_flag cn cfg m (p : YOLOPipeline.t) :
  YOLOPipeline.__init__ cn cfg m = Ok p ->
  YOLOPipeline.has_postprocessing p = true <->
  length (Claimed.output_ranks m) = 1%nat \/
  Forall (fun r => (nth 0 (Claimed.output_ranks m) 0 < r)%nat)
         (drop 1 (Claimed.output_ranks m)).
Proof.
  intros Hinit. rewrite (init_has_postprocessing _ _ _ _ Hinit).
  apply model_has_postprocessing_spec.
Qed.

End Flag.

Section FlagExamples.
#[local] Existing Instances Sample.conversion Sample.host.

(** C1 fails on two outputs of the same rank: every rank is at least the
    first one, and the flag is false. *)
Lemma has_postprocessing_flag_counterexample :
  exists p : YOLOPipeline.t,
    YOLOPipeline.__init__ (CNDict Sample.names) None Sample.same_rank_model = Ok p /\
    ~ (YOLOPipeline.has_postprocessing p = true <->
       Claimed.has_postprocessing Sample.same_rank_model).
Proof.
  eexists. split; [reflexivity|].
  intros [_ Hflag]. simpl in Hflag.
  assert (false = true) as Hfalse; [|discriminate].
  apply Hflag. right. repeat constructor.
Qed.

Lemma has_postprocessing_flag_witness :
  exists p : YOLOPipeline.t,
    YOLOPipeline.__init__ (CNDict Sample.names) None Sample.quantized_model = Ok p /\
    (YOLOPipeline.has_postprocessing p = true <->
     length (Claimed.output_ranks Sample.quantized_model) = 1%nat \/
     Forall (fun r => (nth 0 (Claimed.output_ranks Sample.quantized_model) 0 < r)%nat)
            (drop 1 (Claimed.output_ranks Sample.quantized_model))).
Proof.
  eexists. split; [reflexivity|].
  apply (has_postprocessing_flag (CNDict Sample.names) None Sample.quantized_model).
  reflexivity.
Defined.

End FlagExamples.

(** ** The gate of the pre-NMS postprocessor *)
Section Gate.
Context `{CConversion} `{Host}.

Lemma init_postprocessor cn cfg m (p : YOLOPipeline.t) :
  YOLOPipeline.__init__ cn cfg m = Ok p ->
  if YOLOPipeline.has_postprocessing p
  then YOLOPipeline.postprocessor p = None
  else exists pp, YOLOPipeline.postprocessor p = Some pp /\
                  YoloPostprocessor_new (YOLOPipeline.input_shape p) cfg = Ok pp.
Proof.
  unfold YOLOPipeline.__init__. intros Hinit.
  apply bind_Ok_inv in Hinit as (names & _ & Hinit).
  apply bind_Ok_inv in Hinit as (shp & _ & Hinit).
  apply bind_Ok_inv in Hinit as (q & _ & Hinit).
  apply bind_Ok_inv in Hinit as (pp & Hpp & Hinit).
  injection Hinit as <-. simpl.
  destruct (YOLOPipeline.model_has_postprocessing m).
  - by injection Hpp as <-.
  - destruct (YoloPostprocessor_new shp cfg) as [pp'|] eqn:Hnew; [|discriminate].
    injection Hpp as <-. eauto.
Qed.

(** C2: on a constructed pipeline, [process_engine_outputs] hands the
    engine outputs to [pre_nms_postprocess] of the postprocessor built at
    construction exactly when the stored flag is false, and takes
    [engine_outputs[0]] when it is true; what follows is the same on both
    sides and reads nothing but the pipeline's attributes. *)
Theorem process_engine_outputs_gate cn cfg m (p : YOLOPipeline.t)
    (engine_outputs : list ndarray) (kwargs : gmap string spec_float) :
  YOLOPipeline.__init__ cn cfg m = Ok p ->
  (YOLOPipeline.has_postprocessing p = false ->
   exists pp,
     YoloPostprocessor_new (YOLOPipeline.input_shape p) cfg = Ok pp /\
     YOLOPipeline.process_engine_outputs p engine_outputs kwargs =
       (batch_output ← pre_nms_postprocess pp engine_outputs;
        YOLOPipeline.serialize_batch p kwargs batch_output)) /\
  (YOLOPipeline.has_postprocessing p = true ->
   YOLOPipeline.process_engine_outputs p engine_outputs kwargs =
     (batch_output ← getitem engine_outputs 0;
      YOLOPipeline.serialize_batch p kwargs batch_output)).
Proof.
  intros Hinit. apply init_postprocessor in Hinit.
  unfold YOLOPipeline.process_engine_outputs, YOLOPipeline.select_batch_output.
  destruct (YOLOPipeline.has_postprocessing p).
  - rewrite Hinit. split; [discriminate | reflexivity].
  - destruct Hinit as (pp & -> & Hnew). split; [eauto | discriminate].
Qed.

End Gate.

Section GateExamples.
#[local] Existing Instances Sample.conversion Sample.host.

Lemma process_engine_outputs_gate_witness :
  exists p : YOLOPipeline.t,
    YOLOPipeline.__init__ (CNDict Sample.names) None Sample.raw_model = Ok p /\
    YOLOPipeline.has_postprocessing p = false /\
    exists pp,
      YoloPostprocessor_new (YOLOPipeline.input_shape p) None = Ok pp /\
      YOLOPipeline.process_engine_outputs p [Sample.pixels; Sample.pixels] ∅ =
        (batch_output ← pre_nms_postprocess pp [Sample.pixels; Sample.pixels];
         YOLOPipeline.serialize_batch p ∅ batch_output).
Proof.
  eexists. split; [reflexivity|]. split; [reflexivity|].
  apply (process_engine_outputs_gate (CNDict Sample.names) None Sample.raw_model
           _ [Sample.pixels; Sample.pixels] ∅); reflexivity.
Defined.

End GateExamples.

(** ** Assembling the engine input of a transformers pipeline *)
Section EngineInput.
Context {A : Type}.
Implicit Types (self : TransformersPipeline.t) (tokens : gmap string A).

Lemma all_present_spec names tokens :
  forallb (fun name => bool_decide (is_Some (tokens !! name))) names = true <->
  forall name, name ∈ names -> is_Some (tokens !! name).
Proof.
  rewrite forallb_forall. split.
  - intros Hall name Hin. apply list_elem_of_In, Hall in Hin.
    by apply bool_decide_eq_true in Hin.
  - intros Hall name Hin. apply bool_decide_eq_true, Hall.
    by apply list_elem_of_In.
Qed.

Lemma all_present_false names tokens :
  forallb (fun name => bool_decide (is_Some (tokens !! name))) names = false ->
  exists name, name ∈ names /\ tokens !! name = None.
Proof.
  induction names as [|name names IH]; simpl; [discriminate|].
  intros Hall. apply andb_false_iff in Hall as [Hhere|Hthere].
  - exists name. split; [left|].
    apply bool_decide_eq_false in Hhere. by apply eq_None_not_Some.
  - destruct (IH Hthere) as (name' & Hin & Hnone).
    exists name'. split; [by right | done].
Qed.

Lemma dict_getitem_Some tokens k a :
  tokens !! k = Some a -> dict_getitem tokens k = Ok a.
Proof. unfold dict_getitem. by intros ->. Qed.

Lemma traverse_getitem_present names tokens :
  (forall name, name ∈ names -> is_Some (tokens !! name)) ->
  exists arrays,
    traverse (fun name => dict_getitem tokens name) names = Ok arrays /\
    Forall2 (fun name a => tokens !! name = Some a) names arrays.
Proof.
  induction names as [|name names IH]; intros Hall; simpl.
  - exists []. split; [reflexivity | constructor].
  - destruct (Hall name) as [a Ha]; [left|].
    destruct IH as (arrays & Harrays & HF).
    { intros name' Hin. apply Hall. by right. }
    exists (a :: arrays). rewrite (dict_getitem_Some _ _ _ Ha). cbn.
    rewrite Harrays. split; [reflexivity | by constructor].
Qed.

(** C9: with the declared input names stored on the pipeline,
    [tokens_to_engine_input] raises (a [ValueError]) if and only if some
    declared name is missing from [tokens]; when none is missing it returns
    one array per declared name, in the declared order. *)
Theorem tokens_to_engine_input_spec self names tokens :
  TransformersPipeline.onnx_input_names self = Some names ->
  (raises (TransformersPipeline.tokens_to_engine_input self tokens) = true <->
   exists name, name ∈ names /\ tokens !! name = None) /\
  (forall e, TransformersPipeline.tokens_to_engine_input self tokens = Raise e ->
             exists received, e = ValueError (ExpectedArrays names received)) /\
  ((forall name, name ∈ names -> is_Some (tokens !! name)) ->
   exists arrays,
     TransformersPipeline.tokens_to_engine_input self tokens = Ok arrays /\
     Forall2 (fun name a => tokens !! name = Some a) names arrays).
Proof.
  intros Hnames. unfold TransformersPipeline.tokens_to_engine_input.
  rewrite Hnames.
  destruct (forallb _ names) eqn:Hall; simpl.
  - pose proof (proj1 (all_present_spec names tokens) Hall) as Hpresent.
    destruct (traverse_getitem_present names tokens Hpresent) as (arrays & -> & HF).
    split; [|split].
    + split; [discriminate|]. intros (name & Hin & Hnone).
      destruct (Hpresent name Hin) as [a Ha]. congruence.
    + discriminate.
    + eauto.
  - split; [|split].
    + split; [|reflexivity]. intros _. by apply all_present_false.
    + intros e [= <-]. eauto.
    + intros Hpresent. apply (proj2 (all_present_spec names tokens)) in Hpresent.
      congruence.
Qed.

End EngineInput.

Lemma tokens_to_engine_input_spec_witness :
  TransformersPipeline.tokens_to_engine_input Sample.bert Sample.tokens =
    Ok [[101; 7592; 102]; [1; 1; 1]] /\
  (raises (TransformersPipeline.tokens_to_engine_input Sample.bert Sample.tokens) = true <->
   exists name, name ∈ ["input_ids"; "attention_mask"]%string /\
                Sample.tokens !! name = None).
Proof.
  split; [reflexivity|].
  apply (tokens_to_engine_input_spec Sample.bert
           ["input_ids"; "attention_mask"]%string).
  reflexivity.
Defined.

(** ** The class names given at construction *)
Section ClassNames.
Context `{CConversion} `{Host}.

Lemma str_of_nat_inj (i j : nat) : Py.str (Z.of_nat i) = Py.str (Z.of_nat j) -> i = j.
Proof. unfold Py.str. intros Heq. apply (inj pretty) in Heq. lia. Qed.

Lemma class_names_fold (l : list string) (n : nat) (d : gmap string string) k v :
  foldl (fun d '(index, class_name) => <[Py.str (Z.of_nat index) := class_name]> d)
        d (zip (seq n (length l)) l) !! k = Some v <->
  (exists i, k = Py.str (Z.of_nat (n + i)) /\ l !! i = Some v) \/
  (d !! k = Some v /\ forall i, (i < length l)%nat -> k <> Py.str (Z.of_nat (n + i))).
Proof.
  revert n d. induction l as [|x l IH]; intros n d; simpl.
  - split; [intros Hd; right; split; [done | intros; lia] |].
    intros [(i & _ & Hi)|[Hd _]]; [by rewrite lookup_nil in Hi | done].
  - rewrite IH. split.
    + intros [(i & -> & Hi)|[Hd Hfresh]].
      * left. exists (S i). split; [f_equal; lia | done].
      * destruct (decide (Py.str (Z.of_nat n) = k)) as [<-|Hne].
        -- rewrite lookup_insert_eq in Hd. injection Hd as <-.
           left. exists 0%nat. split; [f_equal; lia | done].
        -- rewrite lookup_insert_ne in Hd by done.
           right. split; [done|]. intros [|i] Hi.
           ++ rewrite Nat.add_0_r. congruence.
           ++ replace (n + S i)%nat with (S n + i)%nat by lia.
              apply Hfresh. lia.
    + intros [(i & -> & Hi)|[Hd Hfresh]].
      * destruct i as [|i]; simpl in Hi.
        -- injection Hi as <-. right. split.
           ++ rewrite Nat.add_0_r. apply lookup_insert_eq.
           ++ intros i Hi Heq. apply str_of_nat_inj in Heq. lia.
        -- left. exists i. split; [f_equal; lia | done].
      * right. split.
        -- rewrite lookup_insert_ne; [done|].
           specialize (Hfresh 0%nat). rewrite Nat.add_0_r in Hfresh.
           intros Heq. apply Hfresh; [lia | done].
        -- intros i Hi. replace (S n + i)%nat with (n + S i)%nat by lia.
           apply Hfresh. lia.
Qed.

(** The map built from a list sends [str(i)] to the [i]-th name and has
    no other key. *)
Lemma class_names_of_list_lookup (l : list string) k v :
  YOLOPipeline.class_names_of_list l !! k = Some v <->
  exists i : nat, k = Py.str (Z.of_nat i) /\ l !! i = Some v.
Proof.
  unfold YOLOPipeline.class_names_of_list, enumerate.
  rewrite class_names_fold. split.
  - intros [Hl|[Hempty _]]; [done | by rewrite lookup_empty in Hempty].
  - intros Hl. by left.
Qed.

Lemma init_resolve cn cfg m :
  YOLOPipeline.__init__ cn cfg m =
    (_class_names ← YOLOPipeline.resolve_class_names cn;
     YOLOPipeline.__init__ (CNDict _class_names) cfg m).
Proof.
  unfold YOLOPipeline.__init__.
  destruct (YOLOPipeline.resolve_class_names cn); reflexivity.
Qed.

(** C10: a list of names is accepted at construction and stands for the
    map from [str(index)] to the name at that index; a string that neither
    ends in [.json] nor is [coco], a value that is no string, dict or
    list, and a JSON file holding such a value make construction fail with
    a [ValueError]. *)
Theorem init_class_names cfg m :
  (forall l,
     YOLOPipeline.__init__ (CNList l) cfg m =
       YOLOPipeline.__init__ (CNDict (YOLOPipeline.class_names_of_list l)) cfg m /\
     (forall p : YOLOPipeline.t,
        YOLOPipeline.__init__ (CNList l) cfg m = Ok p ->
        forall k v, YOLOPipeline._class_names p !! k = Some v <->
                    exists i : nat, k = Py.str (Z.of_nat i) /\ l !! i = Some v)) /\
  YOLOPipeline.__init__ CNOther cfg m = Raise (ValueError ClassNamesMustBe) /\
  (forall s, endswith s ".json" = false -> s <> "coco"%string ->
     YOLOPipeline.__init__ (CNStr s) cfg m = Raise (ValueError (UnknownClassNames s))) /\
  (forall s v, endswith s ".json" = true -> json_load s = Ok v ->
     (forall d, v <> CNDict d) -> (forall l, v <> CNList l) ->
     YOLOPipeline.__init__ (CNStr s) cfg m = Raise (ValueError ClassNamesMustBe)).
Proof.
  split; [|split; [|split]].
  - intros l. split; [reflexivity|].
    intros p Hinit k v. rewrite <- class_names_of_list_lookup.
    unfold YOLOPipeline.__init__ in Hinit. cbn in Hinit.
    apply bind_Ok_inv in Hinit as (shp & _ & Hinit).
    apply bind_Ok_inv in Hinit as (q & _ & Hinit).
    apply bind_Ok_inv in Hinit as (pp & _ & Hinit).
    by injection Hinit as <-.
  - reflexivity.
  - intros s Hjson Hcoco. rewrite init_resolve.
    unfold YOLOPipeline.resolve_class_names. rewrite Hjson.
    apply String.eqb_neq in Hcoco. rewrite Hcoco. reflexivity.
  - intros s v Hjson Hload Hdict Hlist. rewrite init_resolve.
    unfold YOLOPipeline.resolve_class_names. rewrite Hjson, Hload. cbn.
    destruct v; [reflexivity | by destruct (Hdict d) | by destruct (Hlist l)
                | reflexivity].
Qed.

End ClassNames.

Section ClassNamesExamples.
#[local] Existing Instances Sample.conversion Sample.host.

Lemma init_class_names_witness :
  (exists p : YOLOPipeline.t,
     YOLOPipeline.__init__ (CNList ["cat"; "dog"]%string) None Sample.raw_model = Ok p /\
     YOLOPipeline._class_names p !! "1"%string = Some "dog"%string) /\
  YOLOPipeline.__init__ (CNStr "imagenet") None Sample.raw_model =
    Raise (ValueError (UnknownClassNames "imagenet")).
Proof.
  destruct (init_class_names None Sample.raw_model) as (Hlist & _ & Hstr & _).
  split.
  - eexists. split; [reflexivity|].
    apply (proj2 (Hlist ["cat"; "dog"]%string) _ eq_refl).
    exists 1%nat. split; reflexivity.
  - apply Hstr; [reflexivity | discriminate].
Defined.

End ClassNamesExamples.

(** ** The output lists *)
Section Serialization.
Context `{CConversion} `{Host}.
Implicit Types (p : YOLOPipeline.t) (a : array2d).

Lemma Forall2_compose {X Y Z} (P : X -> Y -> Prop) (Q : Y -> Z -> Prop)
    (l : list X) (k : list Y) (m : list Z) :
  Forall2 P l k -> Forall2 Q k m ->
  Forall2 (fun x z => exists y, P x y /\ Q y z) l m.
Proof.
  intros HP. revert m. induction HP; inversion 1; subst; constructor; eauto.
Qed.

Lemma wf2d_row a row :
  wf2d a = true -> row ∈ rows a -> length row = ncols a.
Proof.
  unfold wf2d. rewrite forallb_forall. intros Hwf Hin.
  apply list_elem_of_In, Hwf in Hin. by apply Nat.eqb_eq.
Qed.

Lemma column_Ok a j :
  (j < ncols a)%nat ->
  column a j = Ok ((fun r => default (Int 0) (r !! j)) <$> rows a).
Proof.
  intros Hj. unfold column. apply Nat.ltb_lt in Hj. by rewrite Hj.
Qed.

Lemma column_Forall2 a j col :
  wf2d a = true -> column a j = Ok col ->
  Forall2 (fun row x => row !! j = Some x) (rows a) col.
Proof.
  intros Hwf. unfold column.
  destruct (Nat.ltb_spec j (ncols a)) as [Hj|]; [|discriminate].
  intros Heq. injection Heq as <-.
  apply Forall2_fmap_r, Forall_Forall2_diag, Forall_forall.
  intros row Hrow. apply (wf2d_row _ _ Hwf) in Hrow.
  destruct (lookup_lt_is_Some_2 row j) as [x Hx]; [lia|].
  simpl. by rewrite Hx.
Qed.

Lemma serialize_image_Ok p a pr bx sc lb :
  wf2d a = true ->
  YOLOPipeline.serialize_image p a = Ok (pr, bx, sc, lb) ->
  pr = tolist a /\
  bx = take 4 <$> pr /\
  Forall2 (fun row s => row !! 4%nat = Some s) pr sc /\
  Forall2 (label_of p) pr lb.
Proof.
  intros Hwf. unfold YOLOPipeline.serialize_image. intros Hser.
  apply bind_Ok_inv in Hser as (scores & Hscores & Hser).
  apply bind_Ok_inv in Hser as (classes & Hclasses & Hser).
  apply bind_Ok_inv in Hser as (names & Hnames & Hser).
  injection Hser as <- <- <- <-.
  split; [reflexivity|]. split.
  { unfold tolist, columns. simpl. apply list_fmap_ext.
    intros _ row _. by rewrite drop_0. }
  split; [by apply column_Forall2|].
  apply (column_Forall2 _ _ _ Hwf) in Hclasses.
  apply traverse_Ok_Forall2, Forall2_fmap_l in Hnames.
  eapply Forall2_impl; [apply (Forall2_compose _ _ _ _ _ Hclasses Hnames)|].
  intros row name (c & Hc & Hname). exists c. split; [done|].
  by apply dict_getitem_Ok.
Qed.

Lemma serialize_batch_Ok p kwargs batch out :
  rectangular_nms ->
  YOLOPipeline.serialize_batch p kwargs batch = Ok out ->
  exists dets,
    postprocess_nms batch (dict_get kwargs "iou_thres" YOLOPipeline.float_0_25)
                    (dict_get kwargs "conf_thres" YOLOPipeline.float_0_45) = Ok dets /\
    YOLOPipeline.predictions out = tolist <$> dets /\
    YOLOPipeline.boxes out =
      (fun rows : list (list number) => take 4 <$> rows) <$> YOLOPipeline.predictions out /\
    Forall2 (Forall2 (fun row s => row !! 4%nat = Some s))
            (YOLOPipeline.predictions out) (YOLOPipeline.scores out) /\
    Forall2 (Forall2 (label_of p))
            (YOLOPipeline.predictions out) (YOLOPipeline.labels out).
Proof.
  intros Hrect. unfold YOLOPipeline.serialize_batch. intros Hser.
  apply bind_Ok_inv in Hser as (dets & Hnms & Hser).
  apply bind_Ok_inv in Hser as (per_image & Himages & Hser).
  injection Hser as <-. simpl. exists dets. split; [done|].
  apply Hrect in Hnms. apply traverse_Ok_Forall2 in Himages.
  clear -Hnms Himages.
  induction Himages as [|a [[[pr bx] sc] lb] dets per_image Ha _ IH]; csimpl.
  { repeat split; constructor. }
  apply Forall_cons in Hnms as [Hwf Hnms].
  destruct (IH Hnms) as (IHp & IHb & IHs & IHl).
  destruct (serialize_image_Ok _ _ _ _ _ _ Hwf Ha) as (-> & -> & Hs & Hl).
  split; [by f_equal|]. split; [by f_equal|].
  split; by constructor.
Qed.

Lemma serialize_image_total p a :
  labelled p a -> exists r, YOLOPipeline.serialize_image p a = Ok r.
Proof.
  intros (Hwf & Hcols & Hrows). unfold YOLOPipeline.serialize_image.
  rewrite !column_Ok by lia. cbn.
  destruct (traverse_Ok_all
              (fun class_ids => dict_getitem (YOLOPipeline._class_names p)
                                             (Py.str class_ids))
              (int_of int64 <$> ((fun r => default (Int 0) (r !! 5%nat)) <$> rows a)))
    as [lb ->]; [|cbn; eauto].
  rewrite <- list_fmap_compose. apply Forall_fmap.
  eapply Forall_impl; [exact Hrows|].
  intros row (name & c & Hc & Hname). simpl. rewrite Hc. simpl.
  apply dict_getitem_Ok in Hname. by rewrite Hname.
Qed.

Lemma serialize_image_Raise p a e :
  wf2d a = true -> (6 <= ncols a)%nat ->
  YOLOPipeline.serialize_image p a = Raise e ->
  exists row c, row ∈ rows a /\ row !! 5%nat = Some c /\
    YOLOPipeline._class_names p !! Py.str (int_of int64 c) = None /\
    e = KeyError (Py.str (int_of int64 c)).
Proof.
  intros Hwf Hcols. unfold YOLOPipeline.serialize_image.
  rewrite !column_Ok by lia. cbn. intros Hser.
  apply bind_Raise_inv in Hser as [Hser|(lb & _ & Hser)]; [|discriminate].
  apply traverse_Raise_inv in Hser as (class_ids & Hin & Hget).
  apply list_elem_of_fmap in Hin as (x & -> & Hin).
  apply list_elem_of_fmap in Hin as (row & -> & Hin).
  apply dict_getitem_Raise in Hget as [Hnone ->].
  pose proof (wf2d_row _ _ Hwf Hin) as Hlen.
  destruct (lookup_lt_is_Some_2 row 5) as [c Hc]; [lia|].
  rewrite Hc in Hnone |- *. simpl in *. eauto 10.
Qed.

Lemma serialize_image_unknown p a row c :
  (6 <= ncols a)%nat -> row ∈ rows a -> row !! 5%nat = Some c ->
  YOLOPipeline._class_names p !! Py.str (int_of int64 c) = None ->
  raises (YOLOPipeline.serialize_image p a) = true.
Proof.
  intros Hcols Hin Hc Hnone. unfold YOLOPipeline.serialize_image.
  rewrite !column_Ok by lia. cbn.
  destruct (traverse_Raise_exists
              (fun class_ids => dict_getitem (YOLOPipeline._class_names p)
                                             (Py.str class_ids))
              (int_of int64 <$> ((fun r => default (Int 0) (r !! 5%nat)) <$> rows a)))
    as (x & e & _ & _ & ->); [|reflexivity].
  exists (int_of int64 c). split.
  - apply list_elem_of_fmap. exists c. split; [done|].
    apply list_elem_of_fmap. exists row. by rewrite Hc.
  - unfold dict_getitem. by rewrite Hnone.
Qed.

(** C6: the output lists run parallel to [predictions]. Whenever
    [process_engine_outputs] returns, [predictions] holds the rows of the
    post-NMS arrays, [boxes] the first four elements of each row, [scores]
    its fifth element and [labels] the class name found under the string
    of the integer cast of its sixth element, image by image and row by
    row; and it does return on every post-NMS batch of arrays of at least
    six columns whose class ids are all keys. *)
Theorem process_engine_outputs_parallel p (engine_outputs : list ndarray)
    (kwargs : gmap string spec_float) :
  rectangular_nms ->
  (forall out,
     YOLOPipeline.process_engine_outputs p engine_outputs kwargs = Ok out ->
     exists batch dets,
       YOLOPipeline.select_batch_output p engine_outputs = Ok batch /\
       postprocess_nms batch (dict_get kwargs "iou_thres" YOLOPipeline.float_0_25)
                       (dict_get kwargs "conf_thres" YOLOPipeline.float_0_45) = Ok dets /\
       YOLOPipeline.predictions out = tolist <$> dets /\
       YOLOPipeline.boxes out =
         (fun rows : list (list number) => take 4 <$> rows)
           <$> YOLOPipeline.predictions out /\
       Forall2 (Forall2 (fun row s => row !! 4%nat = Some s))
               (YOLOPipeline.predictions out) (YOLOPipeline.scores out) /\
       Forall2 (Forall2 (label_of p))
               (YOLOPipeline.predictions out) (YOLOPipeline.labels out)) /\
  (forall batch dets,
     YOLOPipeline.select_batch_output p engine_outputs = Ok batch ->
     postprocess_nms batch (dict_get kwargs "iou_thres" YOLOPipeline.float_0_25)
                     (dict_get kwargs "conf_thres" YOLOPipeline.float_0_45) = Ok dets ->
     Forall (labelled p) dets ->
     exists out,
       YOLOPipeline.process_engine_outputs p engine_outputs kwargs = Ok out).
Proof.
  intros Hrect. unfold YOLOPipeline.process_engine_outputs. split.
  - intros out Hout. apply bind_Ok_inv in Hout as (batch & Hbatch & Hout).
    destruct (serialize_batch_Ok _ _ _ _ Hrect Hout) as (dets & Hdets).
    eauto.
  - intros batch dets -> Hnms Hdets. cbn.
    unfold YOLOPipeline.serialize_batch. rewrite Hnms. cbn.
    destruct (traverse_Ok_all (YOLOPipeline.serialize_image p) dets)
      as [per_image ->]; [|cbn; eauto].
    eapply Forall_impl; [exact Hdets|].
    intros a Ha. by destruct (serialize_image_total p a Ha) as [r ->].
Qed.

(** C7, as the code has it: when the class id of some detection of the
    post-NMS batch, cast to an integer and converted to a string, is not a
    key of the class names, [process_engine_outputs] raises the [KeyError]
    of the dictionary lookup for such a detection. *)
Theorem unknown_class_id_raises_KeyError p (engine_outputs : list ndarray)
    (kwargs : gmap string spec_float) batch dets :
  YOLOPipeline.select_batch_output p engine_outputs = Ok batch ->
  postprocess_nms batch (dict_get kwargs "iou_thres" YOLOPipeline.float_0_25)
                  (dict_get kwargs "conf_thres" YOLOPipeline.float_0_45) = Ok dets ->
  Forall (fun a => wf2d a = true /\ (6 <= ncols a)%nat) dets ->
  (exists a row c, a ∈ dets /\ row ∈ rows a /\ row !! 5%nat = Some c /\
     YOLOPipeline._class_names p !! Py.str (int_of int64 c) = None) ->
  exists a row c, a ∈ dets /\ row ∈ rows a /\ row !! 5%nat = Some c /\
    YOLOPipeline._class_names p !! Py.str (int_of int64 c) = None /\
    YOLOPipeline.process_engine_outputs p engine_outputs kwargs =
      Raise (KeyError (Py.str (int_of int64 c))).
Proof.
  intros Hbatch Hnms Hdets (a & row & c & Ha & Hrow & Hc & Hnone).
  unfold YOLOPipeline.process_engine_outputs. rewrite Hbatch. cbn.
  unfold YOLOPipeline.serialize_batch. rewrite Hnms. cbn.
  destruct (traverse_Raise_exists (YOLOPipeline.serialize_image p) dets)
    as (a' & e & Ha' & Hser & ->).
  { exists a. split; [done|].
    rewrite Forall_forall in Hdets. destruct (Hdets a Ha) as [_ Hcols].
    by eapply serialize_image_unknown. }
  rewrite Forall_forall in Hdets. destruct (Hdets a' Ha') as [Hwf Hcols].
  destruct (serialize_image_Raise _ _ _ Hwf Hcols Hser)
    as (row' & c' & Hrow' & Hc' & Hnone' & ->).
  exists a', row', c'. cbn. eauto 10.
Qed.

End Serialization.

Section SerializationExamples.
#[local] Existing Instances Sample.conversion Sample.host.

Lemma sample_rectangular : rectangular_nms.
Proof.
  intros batch iou conf dets Hdets. injection Hdets as <-.
  apply Forall_replicate. reflexivity.
Qed.

Lemma process_engine_outputs_parallel_witness :
  exists p : YOLOPipeline.t,
    YOLOPipeline.__init__ (CNDict Sample.names) None Sample.single_output_model = Ok p /\
    exists out,
      YOLOPipeline.process_engine_outputs p [Sample.pixels] ∅ = Ok out /\
      YOLOPipeline.boxes out =
        (fun rows : list (list number) => take 4 <$> rows)
          <$> YOLOPipeline.predictions out /\
      YOLOPipeline.labels out = [["dog"%string]].
Proof.
  eexists. split; [reflexivity|].
  lazymatch goal with
  | |- exists out, YOLOPipeline.process_engine_outputs ?p _ _ = _ /\ _ =>
      destruct (process_engine_outputs_parallel p [Sample.pixels] ∅ sample_rectangular)
        as [Hout _]
  end.
  eexists. split; [reflexivity|]. split; [|reflexivity].
  destruct (Hout _ eq_refl) as (batch & dets & _ & _ & _ & Hboxes & _).
  exact Hboxes.
Defined.

(** C7 fails on a detection of class 1 when the only class name is that
    of class 0: the lookup's own [KeyError] comes out. *)
Lemma unknown_class_id_counterexample :
  exists p : YOLOPipeline.t,
    YOLOPipeline.__init__ (CNList ["cat"%string]) None Sample.single_output_model = Ok p /\
    YOLOPipeline._class_names p !! Py.str 1 = None /\
    YOLOPipeline.process_engine_outputs p [Sample.pixels] ∅ = Raise (KeyError "1") /\
    YOLOPipeline.process_engine_outputs p [Sample.pixels] ∅ <>
      Raise InvalidConfigurationError.
Proof.
  eexists. split; [reflexivity|]. split; [reflexivity|].
  split; [reflexivity | discriminate].
Qed.

Lemma unknown_class_id_raises_KeyError_witness :
  exists p : YOLOPipeline.t,
    YOLOPipeline.__init__ (CNList ["cat"%string]) None Sample.single_output_model = Ok p /\
    exists a row c,
      a ∈ replicate 1 {| ncols := 6; rows := [Sample.detection] |} /\
      row ∈ rows a /\ row !! 5%nat = Some c /\
      YOLOPipeline._class_names p !! Py.str (int_of int64 c) = None /\
      YOLOPipeline.process_engine_outputs p [Sample.pixels] ∅ =
        Raise (KeyError (Py.str (int_of int64 c))).
Proof.
  eexists. split; [reflexivity|].
  apply (unknown_class_id_raises_KeyError _ [Sample.pixels] ∅ Sample.pixels).
  - reflexivity.
  - reflexivity.
  - repeat constructor.
  - exists {| ncols := 6; rows := [Sample.detection] |}, Sample.detection,
      (Float (S754_finite false 1 0)).
    split; [left|]. split; [left|]. split; reflexivity.
Defined.

End SerializationExamples.

(** ** Arrays: indices, contiguous copies and moved axes *)
Section Arrays.
Context `{CConversion}.

Lemma list_bind_as_join {X Y} (f : X -> list Y) (l : list X) :
  l ≫= f = mjoin (f <$> l).
Proof. induction l as [|x l IH]; csimpl; [done | by rewrite IH]. Qed.

Lemma indices_blocks n shp :
  Forall (fun l : list (list nat) => length l = length (indices shp))
         ((fun i => cons i <$> indices shp) <$> seq 0 n).
Proof.
  apply Forall_fmap, Forall_forall. intros i _. simpl. apply length_fmap.
Qed.

Lemma indices_length shp : length (indices shp) = size_of shp.
Proof.
  induction shp as [|n shp IH]; simpl; [done|].
  rewrite list_bind_as_join, length_join.
  rewrite (sum_list_fmap_same (length (indices shp))) by apply indices_blocks.
  rewrite length_fmap, length_seq, IH. reflexivity.
Qed.

(** The C-order rank of an index within its shape is where [indices]
    lists it. *)
Lemma indices_lookup shp idx :
  in_bounds shp idx = true ->
  exists k : nat,
    dot idx (c_strides shp) = Z.of_nat k /\ (k < size_of shp)%nat /\
    indices shp !! k = Some idx.
Proof.
  revert idx. induction shp as [|n shp IH]; intros [|i idx]; simpl;
    try discriminate.
  - intros _. exists 0%nat. repeat split; lia.
  - intros Hb. apply andb_true_iff in Hb as [Hi Hb]. apply Nat.ltb_lt in Hi.
    destruct (IH idx Hb) as (k & Hdot & Hk & Hlook).
    exists (i * size_of shp + k)%nat. split; [rewrite Hdot; lia|].
    split; [nia|].
    rewrite list_bind_as_join.
    apply (join_lookup_Some_same_length' (size_of shp)); [|done|].
    + rewrite <- indices_length. apply indices_blocks.
    + exists (cons i <$> indices shp). split.
      * rewrite list_lookup_fmap, lookup_seq_lt by done. reflexivity.
      * rewrite list_lookup_fmap, Hlook. reflexivity.
Qed.

Lemma item_in_bounds a idx x :
  item a idx = Some x -> in_bounds (shape a) idx = true.
Proof. unfold item. by destruct (in_bounds (shape a) idx). Qed.

(** Reading a fresh C-contiguous array. *)
Lemma item_c_array dt shp xs idx :
  in_bounds shp idx = true ->
  exists k : nat, (k < size_of shp)%nat /\ indices shp !! k = Some idx /\
                  item (c_array dt shp xs) idx = xs !! k.
Proof.
  intros Hb. destruct (indices_lookup shp idx Hb) as (k & Hdot & Hk & Hlook).
  exists k. split; [done|]. split; [done|].
  unfold item, position, buffer_at. simpl. rewrite Hb, Hdot, Z.add_0_l.
  destruct (Z.leb_spec 0 (Z.of_nat k)); [|lia].
  by rewrite Nat2Z.id.
Qed.

Lemma ravel_lookup a k idx x :
  indices (shape a) !! k = Some idx -> item a idx = Some x ->
  ravel a !! k = Some x.
Proof.
  intros Hk Hx. unfold ravel. by rewrite list_lookup_fmap, Hk; simpl; rewrite Hx.
Qed.

(** A contiguous copy holds the converted elements at the same indices. *)
Lemma item_ascontiguousarray a dt idx x :
  ndim a <> 0%nat -> item a idx = Some x ->
  item (ascontiguousarray a dt) idx = Some (astype dt x).
Proof.
  intros Hnd Hx. unfold ascontiguousarray.
  destruct (Nat.eqb_spec (ndim a) 0) as [|_]; [done|].
  destruct (item_c_array dt (shape a) (astype dt <$> ravel a) idx)
    as (k & _ & Hk & ->); [by eapply item_in_bounds|].
  by rewrite list_lookup_fmap, (ravel_lookup _ _ _ _ Hk Hx).
Qed.

Lemma item_itruediv a d b idx :
  itruediv a d = Ok b ->
  shape b = shape a /\ dtype_of b = dtype_of a /\
  item b idx = true_divide (dtype_of a) d <$> item a idx.
Proof.
  unfold itruediv. destruct (is_float (dtype_of a)); [|discriminate].
  intros Hb. injection Hb as <-. split; [done|]. split; [done|].
  unfold item, position, buffer_at. simpl.
  destruct (in_bounds (shape a) idx); [|done].
  destruct (0 <=? _); [|done].
  by rewrite list_lookup_fmap.
Qed.

Lemma item_c_array_cons dt n shp xs i idx :
  (i < n)%nat -> in_bounds shp idx = true ->
  exists k : nat, (k < size_of shp)%nat /\ indices shp !! k = Some idx /\
    item (c_array dt (n :: shp) xs) (i :: idx) = xs !! (i * size_of shp + k)%nat.
Proof.
  intros Hi Hb. destruct (indices_lookup shp idx Hb) as (k & Hdot & Hk & Hlook).
  exists k. split; [done|]. split; [done|].
  unfold item, position, buffer_at. simpl. rewrite Hb, Hdot, Z.add_0_l.
  apply Nat.ltb_lt in Hi. rewrite Hi. simpl.
  replace (Z.of_nat i * Z.of_nat (size_of shp) + Z.of_nat k)
    with (Z.of_nat (i * size_of shp + k)) by lia.
  destruct (Z.leb_spec 0 (Z.of_nat (i * size_of shp + k))); [|lia].
  by rewrite Nat2Z.id.
Qed.

Lemma ravel_length a : length (ravel a) = size_of (shape a).
Proof. unfold ravel. by rewrite length_fmap, indices_length. Qed.

(** [numpy.stack] succeeds on a non-empty list of arrays of one shape,
    and puts the elements of the [i]-th array under the leading index
    [i]. *)
Lemma stack_Ok arrays b :
  stack arrays = Ok b ->
  exists a0 rest,
    arrays = a0 :: rest /\
    Forall (fun a => shape a = shape a0) arrays /\
    shape b = length arrays :: shape a0 /\
    dtype_of b = foldl promote_types (dtype_of a0) (dtype_of <$> rest) /\
    forall i a idx x,
      arrays !! i = Some a -> item a idx = Some x ->
      item b (i :: idx) = Some (astype (dtype_of b) x).
Proof.
  unfold stack. destruct arrays as [|a0 rest]; [discriminate|].
  destruct (forallb _ rest) eqn:Hshapes; [|discriminate].
  intros Hb. injection Hb as <-. exists a0, rest. split; [done|].
  assert (Forall (fun a => shape a = shape a0) (a0 :: rest)) as Hall.
  { constructor; [done|]. apply Forall_forall. intros a Ha.
    rewrite forallb_forall in Hshapes.
    apply list_elem_of_In, Hshapes in Ha. by apply bool_decide_eq_true in Ha. }
  split; [done|]. split; [done|]. split; [done|].
  intros i a idx x Ha Hx. simpl dtype_of.
  set (dt := foldl promote_types (dtype_of a0) (dtype_of <$> rest)).
  pose proof (Forall_lookup_1 _ _ _ _ Hall Ha) as Hshape. simpl in Hshape.
  destruct (item_c_array_cons dt (length (a0 :: rest)) (shape a0)
              ((a0 :: rest) ≫= fun a => astype dt <$> ravel a) i idx)
    as (k & Hk & Hlook & Hitem).
  { by eapply lookup_lt_Some. }
  { rewrite <- Hshape. by eapply item_in_bounds. }
  etrans; [exact Hitem|]. rewrite list_bind_as_join.
  apply (join_lookup_Some_same_length' (size_of (shape a0))); [|done|].
  - apply Forall_fmap. eapply Forall_impl; [exact Hall|].
    intros a' Ha'. simpl. by rewrite length_fmap, ravel_length, Ha'.
  - exists (astype dt <$> ravel a). split.
    + by rewrite list_lookup_fmap, Ha.
    + rewrite list_lookup_fmap, (ravel_lookup a k idx x); [done| |done].
      by rewrite Hshape.
Qed.

Lemma stack_total a0 rest :
  Forall (fun a => shape a = shape a0) rest ->
  exists b, stack (a0 :: rest) = Ok b.
Proof.
  intros Hall. unfold stack.
  destruct (forallb _ rest) eqn:Hshapes; [eauto|].
  apply not_true_iff_false in Hshapes. destruct Hshapes.
  apply forallb_forall. intros a Ha. apply bool_decide_eq_true.
  rewrite Forall_forall in Hall. by apply Hall, list_elem_of_In.
Qed.


(** Moving the last axis of a three-dimensional view to the front, and of
    a four-dimensional view to position 1. *)
Lemma moveaxis_3 dt h w c strd off xs :
  moveaxis {| dtype_of := dt; shape := [h; w; c]; strides := strd;
              offset := off; data := xs |} (-1) 0 =
  Ok {| dtype_of := dt; shape := [c; h; w];
        strides := [nth 2 strd 0; nth 0 strd 0; nth 1 strd 0];
        offset := off; data := xs |}.
Proof. reflexivity. Qed.

Lemma moveaxis_4 dt n h w c strd off xs :
  moveaxis {| dtype_of := dt; shape := [n; h; w; c]; strides := strd;
              offset := off; data := xs |} (-1) 1 =
  Ok {| dtype_of := dt; shape := [n; c; h; w];
        strides := [nth 0 strd 0; nth 3 strd 0; nth 1 strd 0; nth 2 strd 0];
        offset := off; data := xs |}.
Proof. reflexivity. Qed.

End Arrays.

(** ** Channel order and batch assembly *)
Section Normalizer.
Context `{CConversion}.

Ltac same_position :=
  lazymatch goal with
  | |- (if 0 <=? ?p then _ else _) = (if 0 <=? ?q then _ else _) =>
      replace p with q by lia; reflexivity
  end.

Lemma item_moved_3 dt h w strd off xs c i j :
  item {| dtype_of := dt; shape := [3%nat; h; w];
          strides := [nth 2 strd 0; nth 0 strd 0; nth 1 strd 0];
          offset := off; data := xs |} [c; i; j] =
  item {| dtype_of := dt; shape := [h; w; 3%nat]; strides := strd;
          offset := off; data := xs |} [i; j; c].
Proof.
  unfold item, position, buffer_at. simpl.
  destruct (c <? 3)%nat, (i <? h)%nat, (j <? w)%nat; simpl; try reflexivity.
  destruct strd as [|s0 [|s1 [|s2 strd]]]; simpl; same_position.
Qed.

Lemma item_moved_4 dt n h w strd off xs k c i j :
  item {| dtype_of := dt; shape := [n; 3%nat; h; w];
          strides := [nth 0 strd 0; nth 3 strd 0; nth 1 strd 0; nth 2 strd 0];
          offset := off; data := xs |} [k; c; i; j] =
  item {| dtype_of := dt; shape := [n; h; w; 3%nat]; strides := strd;
          offset := off; data := xs |} [k; i; j; c].
Proof.
  unfold item, position, buffer_at. simpl.
  destruct (k <? n)%nat, (c <? 3)%nat, (i <? h)%nat, (j <? w)%nat; simpl;
    try reflexivity.
  destruct strd as [|s0 [|s1 [|s2 [|s3 strd]]]]; simpl; same_position.
Qed.

(** C4: an array of shape [(h, w, 3)] comes back as a view of shape
    [(3, h, w)] whose element at [(c, i, j)] is the element at [(i, j, c)];
    an array of shape [(n, h, w, 3)] as a view of shape [(n, 3, h, w)]
    whose element at [(k, c, i, j)] is the element at [(k, i, j, c)]; an
    array whose last dimension is not 3 comes back as it is. *)
Theorem make_channels_first_spec (a : ndarray) :
  (forall h w, shape a = [h; w; 3%nat] ->
     exists b, YOLOPipeline._make_channels_first a = Ok b /\
       shape b = [3%nat; h; w] /\ dtype_of b = dtype_of a /\
       forall c i j, item b [c; i; j] = item a [i; j; c]) /\
  (forall n h w, shape a = [n; h; w; 3%nat] ->
     exists b, YOLOPipeline._make_channels_first a = Ok b /\
       shape b = [n; 3%nat; h; w] /\ dtype_of b = dtype_of a /\
       forall k c i j, item b [k; c; i; j] = item a [k; i; j; c]) /\
  (forall channels, last (shape a) = Some channels -> channels <> 3%nat ->
     YOLOPipeline._make_channels_first a = Ok a).
Proof.
  destruct a as [dt shp strd off xs]. simpl. split; [|split].
  - intros h w ->. eexists. split; [reflexivity|].
    split; [reflexivity|]. split; [reflexivity|]. apply item_moved_3.
  - intros n h w ->. eexists. split; [reflexivity|].
    split; [reflexivity|]. split; [reflexivity|]. apply item_moved_4.
  - intros channels Hlast Hne. unfold YOLOPipeline._make_channels_first.
    simpl. rewrite Hlast. apply Nat.eqb_neq in Hne. by rewrite Hne.
Qed.

(** C5: a list of one four-dimensional array is that array; in every
    other case the batch is [numpy.stack] of the list, which, for a
    non-empty list of arrays of one shape, is a new array with one more
    leading axis, as long as the list, holding the (converted) elements of
    the [i]-th array under the leading index [i]. *)
Theorem make_batch_spec :
  (forall a, ndim a = 4%nat -> YOLOPipeline._make_batch [a] = Ok a) /\
  (forall image_batch,
     (forall a, image_batch = [a] -> ndim a <> 4%nat) ->
     YOLOPipeline._make_batch image_batch = stack image_batch) /\
  (forall a0 rest,
     Forall (fun a => shape a = shape a0) rest ->
     exists b, stack (a0 :: rest) = Ok b) /\
  (forall image_batch b,
     stack image_batch = Ok b ->
     exists a0 rest,
       image_batch = a0 :: rest /\
       Forall (fun a => shape a = shape a0) image_batch /\
       shape b = length image_batch :: shape a0 /\
       dtype_of b = foldl promote_types (dtype_of a0) (dtype_of <$> rest) /\
       forall i a idx x,
         image_batch !! i = Some a -> item a idx = Some x ->
         item b (i :: idx) = Some (astype (dtype_of b) x)).
Proof.
  split; [|split; [|split]].
  - intros a Hnd. unfold YOLOPipeline._make_batch. simpl.
    by rewrite Hnd.
  - intros image_batch Hother. unfold YOLOPipeline._make_batch.
    destruct image_batch as [|a [|a' rest]]; try reflexivity.
    simpl. cbn. destruct (Nat.eqb_spec (ndim a) 4) as [Hnd|]; [|done].
    by destruct (Hother a).
  - apply stack_total.
  - apply stack_Ok.
Qed.

End Normalizer.

Section NormalizerExamples.
#[local] Existing Instances Sample.conversion Sample.host.

Lemma make_channels_first_spec_witness :
  (exists b, YOLOPipeline._make_channels_first Sample.pixels = Ok b /\
     shape b = [3; 1; 2]%nat /\ dtype_of b = dtype_of Sample.pixels /\
     forall c i j, item b [c; i; j] = item Sample.pixels [i; j; c]) /\
  YOLOPipeline._make_channels_first (c_array uint8 [2; 2]%nat (Int <$> [1; 2; 3; 4])) =
    Ok (c_array uint8 [2; 2]%nat (Int <$> [1; 2; 3; 4])).
Proof.
  split.
  - apply (make_channels_first_spec Sample.pixels). reflexivity.
  - apply (make_channels_first_spec (c_array uint8 [2; 2]%nat (Int <$> [1; 2; 3; 4])))
      with (channels := 2%nat); [reflexivity | lia].
Defined.

Lemma make_batch_spec_witness :
  YOLOPipeline._make_batch [Sample.pixels; Sample.pixels] =
    stack [Sample.pixels; Sample.pixels] /\
  exists b, stack [Sample.pixels; Sample.pixels] = Ok b /\
    item b [1; 0; 1; 2]%nat = Some (astype (dtype_of b) (Int 30)).
Proof.
  destruct make_batch_spec as (_ & Hstack & Htotal & Hitems).
  split.
  - apply Hstack. discriminate.
  - destruct (Htotal Sample.pixels [Sample.pixels]) as [b Hb].
    { repeat constructor. }
    exists b. split; [exact Hb|].
    destruct (Hitems _ _ Hb) as (a0 & rest & _ & _ & _ & _ & Hitem).
    apply (Hitem 1%nat Sample.pixels [0; 1; 2]%nat); reflexivity.
Defined.

End NormalizerExamples.

(** ** The cast of the batch *)
Section Cast.
Context `{CConversion} `{Host}.


Lemma make_batch_ndim image_batch raw :
  YOLOPipeline._make_batch image_batch = Ok raw -> ndim raw <> 0%nat.
Proof.
  unfold YOLOPipeline._make_batch. intros Hraw.
  assert (stack image_batch = Ok raw -> ndim raw <> 0%nat) as Hstack.
  { intros Hs. apply stack_Ok in Hs as (a0 & rest & _ & _ & Hshape & _).
    unfold ndim. by rewrite Hshape. }
  destruct (length image_batch =? 1)%nat; [|auto].
  apply bind_Ok_inv in Hraw as (current & _ & Hraw).
  destruct (Nat.eqb_spec (ndim current) 4) as [Hnd|]; [|auto].
  injection Hraw as <-. by rewrite Hnd.
Qed.




End Cast.

Section CastExamples.
#[local] Existing Instances Sample.conversion Sample.host.


End CastExamples.

(** ** Images that cannot be loaded *)
Section Malformed.
Context `{CConversion} `{Host}.



End Malformed.

Section MalformedExamples.
#[local] Existing Instances Sample.conversion Sample.host.



End MalformedExamples.

(** * Further properties *)

(** ** Construction *)
Section Construction.
Context `{CConversion} `{Host}.

Lemma infer_image_shape_Ok m shp :
  YOLOPipeline._infer_image_shape m = Ok shp <->
  exists input0 d2 d3,
    Onnx.input (Onnx.graph m) !! 0%nat = Some input0 /\
    Onnx.dim input0 !! 2%nat = Some d2 /\ Onnx.dim input0 !! 3%nat = Some d3 /\
    shp = (Onnx.dim_value d2, Onnx.dim_value d3).
Proof.
  unfold YOLOPipeline._infer_image_shape, getitem. split.
  - destruct (Onnx.input (Onnx.graph m) !! 0%nat) as [input0|]; [|discriminate].
    cbn. destruct (Onnx.dim input0 !! 2%nat) as [d2|] eqn:H2; [|discriminate].
    cbn. destruct (Onnx.dim input0 !! 3%nat) as [d3|] eqn:H3; [|discriminate].
    cbn. intros Heq. injection Heq as <-. by exists input0, d2, d3.
  - intros (input0 & d2 & d3 & -> & H2 & H3 & ->). cbn.
    rewrite H2. cbn. rewrite H3. reflexivity.
Qed.

Lemma infer_image_shape_short m :
  (forall input0, Onnx.input (Onnx.graph m) !! 0%nat = Some input0 ->
                  (length (Onnx.dim input0) < 4)%nat) ->
  YOLOPipeline._infer_image_shape m = Raise IndexError.
Proof.
  intros Hshort. unfold YOLOPipeline._infer_image_shape, getitem.
  destruct (Onnx.input (Onnx.graph m) !! 0%nat) as [input0|]; [|reflexivity].
  specialize (Hshort input0 eq_refl). cbn.
  destruct (Onnx.dim input0 !! 2%nat) as [d2|]; [|reflexivity]. cbn.
  rewrite (lookup_ge_None_2 (Onnx.dim input0) 3) by lia. reflexivity.
Qed.

(** X1: a constructed pipeline holds, as [input_shape], the values of the
    third and fourth dimensions of the model's first input, and the
    [model_config] it was given; when the class names are accepted but
    the model has no input, or a first input of fewer than four
    dimensions, construction raises [IndexError]. *)
Theorem init_input_shape cn cfg m :
  (forall p : YOLOPipeline.t,
     YOLOPipeline.__init__ cn cfg m = Ok p ->
     exists input0 d2 d3,
       Onnx.input (Onnx.graph m) !! 0%nat = Some input0 /\
       Onnx.dim input0 !! 2%nat = Some d2 /\ Onnx.dim input0 !! 3%nat = Some d3 /\
       YOLOPipeline.input_shape p = (Onnx.dim_value d2, Onnx.dim_value d3) /\
       YOLOPipeline._model_config p = cfg) /\
  (forall names,
     YOLOPipeline.resolve_class_names cn = Ok names ->
     (forall input0, Onnx.input (Onnx.graph m) !! 0%nat = Some input0 ->
                     (length (Onnx.dim input0) < 4)%nat) ->
     YOLOPipeline.__init__ cn cfg m = Raise IndexError).
Proof.
  split.
  - intros p Hinit. unfold YOLOPipeline.__init__ in Hinit.
    apply bind_Ok_inv in Hinit as (names & _ & Hinit).
    apply bind_Ok_inv in Hinit as (shp & Hshp & Hinit).
    apply bind_Ok_inv in Hinit as (q & _ & Hinit).
    apply bind_Ok_inv in Hinit as (pp & _ & Hinit).
    injection Hinit as <-. simpl.
    apply infer_image_shape_Ok in Hshp as (input0 & d2 & d3 & ? & ? & ? & ->).
    eauto 10.
  - intros names Hnames Hshort. unfold YOLOPipeline.__init__.
    rewrite Hnames. cbn. by rewrite infer_image_shape_short.
Qed.

Lemma init_class_names_of_list cfg m l (p : YOLOPipeline.t) :
  YOLOPipeline.__init__ (CNList l) cfg m = Ok p ->
  YOLOPipeline._class_names p = YOLOPipeline.class_names_of_list l.
Proof.
  unfold YOLOPipeline.__init__. cbn. intros Hinit.
  apply bind_Ok_inv in Hinit as (shp & _ & Hinit).
  apply bind_Ok_inv in Hinit as (q & _ & Hinit).
  apply bind_Ok_inv in Hinit as (pp & _ & Hinit).
  by injection Hinit as <-.
Qed.

(** X2: on a pipeline constructed from a list of names, the string of an
    integer [z] is a key exactly when [0 <= z < len(names)], and it is
    mapped to the name at position [z]: looking up a class id gives the
    name at that index, and a negative or too large id gives nothing. *)
Theorem list_class_names_lookup cfg m l (p : YOLOPipeline.t) (z : Z) :
  YOLOPipeline.__init__ (CNList l) cfg m = Ok p ->
  YOLOPipeline._class_names p !! Py.str z =
    if 0 <=? z then l !! Z.to_nat z else None.
Proof.
  intros Hinit. rewrite (init_class_names_of_list _ _ _ _ Hinit).
  destruct (YOLOPipeline.class_names_of_list l !! Py.str z) as [v|] eqn:Hlook.
  - apply class_names_of_list_lookup in Hlook as (i & Hstr & Hi).
    apply (inj pretty) in Hstr. subst z.
    destruct (Z.leb_spec 0 (Z.of_nat i)); [|lia]. by rewrite Nat2Z.id.
  - destruct (Z.leb_spec 0 z) as [Hz|]; [|done].
    destruct (l !! Z.to_nat z) as [v|] eqn:Hv; [|done].
    assert (YOLOPipeline.class_names_of_list l !! Py.str z = Some v) as Hsome.
    { apply class_names_of_list_lookup. exists (Z.to_nat z).
      split; [|done]. f_equal. lia. }
    congruence.
Qed.

End Construction.

Section ConstructionExamples.
#[local] Existing Instances Sample.conversion Sample.host.

Lemma init_input_shape_witness :
  (exists p : YOLOPipeline.t,
     YOLOPipeline.__init__ (CNDict Sample.names) (Some "yolov5s.yaml"%string)
       Sample.raw_model = Ok p /\
     YOLOPipeline._model_config p = Some "yolov5s.yaml"%string) /\
  YOLOPipeline.__init__ (CNDict Sample.names) None
    {| Onnx.graph := {| Onnx.input := [Sample.value_info 1 [1; 3; 640]];
                        Onnx.output := [] |} |} = Raise IndexError.
Proof.
  split.
  - eexists. split; [reflexivity|].
    lazymatch goal with
    | |- YOLOPipeline._model_config ?p = _ =>
        destruct (proj1 (init_input_shape (CNDict Sample.names)
                           (Some "yolov5s.yaml"%string) Sample.raw_model) p eq_refl)
          as (input0 & d2 & d3 & _ & _ & _ & _ & Hcfg)
    end.
    exact Hcfg.
  - apply (proj2 (init_input_shape _ _ _) Sample.names); [reflexivity|].
    intros input0 Hinput. injection Hinput as <-. simpl. lia.
Defined.

Lemma list_class_names_lookup_witness :
  exists p : YOLOPipeline.t,
    YOLOPipeline.__init__ (CNList ["cat"; "dog"]%string) None Sample.raw_model = Ok p /\
    YOLOPipeline._class_names p !! Py.str 1 = Some "dog"%string /\
    YOLOPipeline._class_names p !! Py.str 2 = None /\
    YOLOPipeline._class_names p !! Py.str (-1) = None.
Proof.
  eexists. split; [reflexivity|].
  split; [|split];
    exact (list_class_names_lookup None Sample.raw_model ["cat"; "dog"]%string
             _ _ eq_refl).
Defined.

End ConstructionExamples.

(** ** Batch assembly end to end *)
Section Assembly.
Context `{CConversion} `{Host}.

Lemma forallb_false_elem {X} (f : X -> bool) (l : list X) :
  forallb f l = false -> exists x, x ∈ l /\ f x = false.
Proof.
  induction l as [|y l IH]; simpl; [discriminate|].
  destruct (f y) eqn:Hy; simpl.
  - intros Hl. destruct (IH Hl) as (x & Hin & Hx).
    exists x. split; [by right | done].
  - intros _. exists y. split; [left | done].
Qed.

Lemma stack_raises arrays :
  raises (stack arrays) = true <->
  arrays = [] \/
  exists a0 rest a, arrays = a0 :: rest /\ a ∈ rest /\ shape a <> shape a0.
Proof.
  destruct arrays as [|a0 rest]; simpl.
  - split; [by left | done].
  - destruct (forallb _ rest) eqn:Hshapes; simpl.
    + split; [discriminate|]. intros [|(a1 & rest' & a & Heq & Ha & Hne)]; [done|].
      injection Heq as <- <-. rewrite forallb_forall in Hshapes.
      apply list_elem_of_In, Hshapes in Ha. by apply bool_decide_eq_true in Ha.
    + split; [|done]. intros _. right.
      apply forallb_false_elem in Hshapes as (a & Ha & Hne).
      apply bool_decide_eq_false in Hne. by exists a0, rest, a.
Qed.

Lemma make_batch_raises_stack image_batch :
  raises (YOLOPipeline._make_batch image_batch) = raises (stack image_batch).
Proof.
  unfold YOLOPipeline._make_batch.
  destruct image_batch as [|a [|a' rest]]; try reflexivity.
  cbn. by destruct (ndim a =? 4)%nat.
Qed.

(** X3: [_make_batch] raises exactly when the list is empty or holds an
    array whose shape differs from the first one's, and what it raises is
    the [ValueError] of [numpy.stack]; so [process_inputs] on no image at
    all raises that [ValueError]. *)
Theorem make_batch_raises (image_batch : list ndarray) :
  (raises (YOLOPipeline._make_batch image_batch) = true <->
   image_batch = [] \/
   exists a0 rest a, image_batch = a0 :: rest /\ a ∈ rest /\ shape a <> shape a0) /\
  (forall e, YOLOPipeline._make_batch image_batch = Raise e ->
     e = ValueError NeedAtLeastOneArray \/ e = ValueError SameShapeRequired) /\
  (forall (p : YOLOPipeline.t) iou conf,
     YOLOPipeline.process_inputs p
       {| YOLOPipeline.images := []; YOLOPipeline.iou_thres := iou;
          YOLOPipeline.conf_thres := conf |} =
     Raise (ValueError NeedAtLeastOneArray)).
Proof.
  split; [|split].
  - rewrite make_batch_raises_stack. apply stack_raises.
  - intros e. unfold YOLOPipeline._make_batch, stack.
    destruct image_batch as [|a [|a' rest]]; cbn.
    + intros [= <-]. by left.
    + destruct (ndim a =? 4)%nat; discriminate.
    + destruct (_ && _); [discriminate|]. intros [= <-]. by right.
  - reflexivity.
Qed.

Lemma process_inputs_assembled (p : YOLOPipeline.t) inputs raw :
  (image_batch ← traverse (YOLOPipeline.load_image p) (YOLOPipeline.images inputs);
   YOLOPipeline._make_batch image_batch) = Ok raw ->
  exists batch,
    YOLOPipeline.process_inputs p inputs =
      Ok ([batch], <["conf_thres" := YOLOPipeline.conf_thres inputs]>
                     (<["iou_thres" := YOLOPipeline.iou_thres inputs]> ∅)) /\
    shape batch = shape raw /\
    dtype_of batch = (if YOLOPipeline.is_quantized p then int8 else float32) /\
    strides batch = c_strides (shape raw) /\ offset batch = 0 /\
    length (data batch) = size_of (shape raw) /\
    forall idx x, item raw idx = Some x ->
      item batch idx =
        Some (if YOLOPipeline.is_quantized p then astype int8 x
              else true_divide float32 255 (astype float32 x)).
Proof.
  intros Hraw. apply bind_Ok_inv in Hraw as (image_batch & Hload & Hraw).
  pose proof (make_batch_ndim _ _ Hraw) as Hnd.
  assert (forall dt, shape (ascontiguousarray raw dt) = shape raw) as Hshape.
  { intros dt. unfold ascontiguousarray. simpl.
    by destruct (Nat.eqb_spec (ndim raw) 0). }
  assert (forall dt, strides (ascontiguousarray raw dt) = c_strides (shape raw))
    as Hstrides.
  { intros dt. unfold ascontiguousarray. simpl.
    by destruct (Nat.eqb_spec (ndim raw) 0). }
  assert (forall dt, length (data (ascontiguousarray raw dt)) = size_of (shape raw))
    as Hlen.
  { intros dt. unfold ascontiguousarray. simpl.
    by rewrite length_fmap, ravel_length. }
  unfold YOLOPipeline.process_inputs. rewrite Hload. cbn. rewrite Hraw. cbn.
  destruct (YOLOPipeline.is_quantized p); cbn.
  - eexists. split; [reflexivity|].
    split; [apply Hshape|]. split; [reflexivity|].
    split; [apply Hstrides|]. split; [reflexivity|]. split; [apply Hlen|].
    intros idx x Hx. exact (item_ascontiguousarray raw int8 idx x Hnd Hx).
  - eexists. split; [reflexivity|].
    split; [apply (Hshape float32)|]. split; [reflexivity|].
    split; [apply (Hstrides float32)|]. split; [reflexivity|].
    split; [simpl; rewrite length_fmap; apply (Hlen float32)|].
    intros idx x Hx.
    destruct (item_itruediv (ascontiguousarray raw float32) 255 _ idx eq_refl)
      as (_ & _ & Hitem).
    etrans; [exact Hitem|].
    rewrite (item_ascontiguousarray raw float32 idx x Hnd Hx). reflexivity.
Qed.

Lemma process_inputs_Ok_inv (p : YOLOPipeline.t) inputs r :
  YOLOPipeline.process_inputs p inputs = Ok r ->
  exists raw,
    (image_batch ← traverse (YOLOPipeline.load_image p) (YOLOPipeline.images inputs);
     YOLOPipeline._make_batch image_batch) = Ok raw.
Proof.
  unfold YOLOPipeline.process_inputs. intros Hr.
  apply bind_Ok_inv in Hr as (image_batch & Hload & Hr).
  apply bind_Ok_inv in Hr as (raw & Hraw & _).
  exists raw. rewrite Hload. exact Hraw.
Qed.


(** X5: the keyword arguments [process_inputs] returns hold the two
    thresholds of the inputs and nothing else, so that
    [process_engine_outputs], given them, reads back the inputs' own
    thresholds and never its defaults. *)
Theorem process_inputs_kwargs (p : YOLOPipeline.t) inputs batches kwargs :
  YOLOPipeline.process_inputs p inputs = Ok (batches, kwargs) ->
  (forall dflt, dict_get kwargs "iou_thres" dflt = YOLOPipeline.iou_thres inputs) /\
  (forall dflt, dict_get kwargs "conf_thres" dflt = YOLOPipeline.conf_thres inputs) /\
  dom kwargs = ({["iou_thres"; "conf_thres"]} : gset string).
Proof.
  intros Hproc. destruct (process_inputs_Ok_inv _ _ _ Hproc) as [raw Hraw].
  destruct (process_inputs_assembled _ _ _ Hraw) as (batch & Hbatch & _).
  rewrite Hbatch in Hproc. injection Hproc as <- <-.
  split; [|split].
  - intros dflt. unfold dict_get.
    rewrite lookup_insert_ne by done. by rewrite lookup_insert_eq.
  - intros dflt. unfold dict_get. by rewrite lookup_insert_eq.
  - rewrite !dom_insert_L, dom_empty_L. set_solver.
Qed.

End Assembly.

(** ** From images to the engine input *)
Section EndToEnd.
Context `{CConversion} `{Host}.

Lemma channels_first_hwc a h w :
  shape a = [h; w; 3%nat] ->
  exists b, YOLOPipeline._make_channels_first a = Ok b /\
    shape b = [3%nat; h; w] /\ dtype_of b = dtype_of a /\
    data b = data a /\ offset b = offset a /\
    forall c i j, item b [c; i; j] = item a [i; j; c].
Proof.
  destruct a as [dt shp strd off xs]. simpl. intros ->.
  eexists. split; [reflexivity|]. repeat (split; [reflexivity|]).
  apply item_moved_3.
Qed.

Lemma channels_first_nhwc a n h w :
  shape a = [n; h; w; 3%nat] ->
  exists b, YOLOPipeline._make_channels_first a = Ok b /\
    shape b = [n; 3%nat; h; w] /\ dtype_of b = dtype_of a /\
    data b = data a /\ offset b = offset a /\
    forall k c i j, item b [k; c; i; j] = item a [k; i; j; c].
Proof.
  destruct a as [dt shp strd off xs]. simpl. intros ->.
  eexists. split; [reflexivity|]. repeat (split; [reflexivity|]).
  apply item_moved_4.
Qed.





(** X8: [_make_channels_first] raises (an [IndexError]) exactly on an
    array without axes; on any other array it returns a view on the same
    buffer, at the same offset and of the same element type, whose shape
    is a permutation of the array's. *)
Theorem make_channels_first_view (a : ndarray) :
  (ndim a = 0%nat -> YOLOPipeline._make_channels_first a = Raise IndexError) /\
  (ndim a <> 0%nat ->
   exists b, YOLOPipeline._make_channels_first a = Ok b /\
     data b = data a /\ offset b = offset a /\ dtype_of b = dtype_of a /\
     shape b ≡ₚ shape a).
Proof.
  split.
  - unfold ndim. intros Hnd. apply nil_length_inv in Hnd.
    unfold YOLOPipeline._make_channels_first. by rewrite Hnd.
  - intros Hnd. unfold YOLOPipeline._make_channels_first.
    destruct (last (shape a)) as [channels|] eqn:Hlast.
    2:{ apply last_None in Hlast. unfold ndim in Hnd. by rewrite Hlast in Hnd. }
    destruct (Nat.eqb_spec channels 3) as [->|]; simpl; [|by exists a].
    destruct (Nat.eqb_spec (ndim a) 3) as [Hthree|_].
    { destruct a as [dt [|h [|w [|c [|? ?]]]] strd off xs]; try discriminate.
      simpl in Hlast. injection Hlast as ->.
      eexists. split; [reflexivity|]. repeat (split; [reflexivity|]).
      simpl. by rewrite (Permutation_app_comm [3%nat] [h; w]). }
    destruct (Nat.eqb_spec (ndim a) 4) as [Hfour|_]; [|by exists a].
    destruct a as [dt [|n [|h [|w [|c [|? ?]]]]] strd off xs]; try discriminate.
    simpl in Hlast. injection Hlast as ->.
    eexists. split; [reflexivity|]. repeat (split; [reflexivity|]).
    simpl. constructor. by rewrite (Permutation_app_comm [3%nat] [h; w]).
Qed.

(** X9: on an array of shape [(h, w, 3)] or [(n, h, w, 3)] whose width
    [w] is not 3, applying [_make_channels_first] a second time changes
    nothing. *)
Theorem make_channels_first_twice (a : ndarray) h w :
  w <> 3%nat ->
  shape a = [h; w; 3%nat] \/ (exists n, shape a = [n; h; w; 3%nat]) ->
  exists b, YOLOPipeline._make_channels_first a = Ok b /\
            YOLOPipeline._make_channels_first b = Ok b.
Proof.
  intros Hw [Hshape|[n Hshape]].
  - destruct (channels_first_hwc a h w Hshape) as (b & Hb & Hbshape & _).
    exists b. split; [done|]. unfold YOLOPipeline._make_channels_first.
    rewrite Hbshape. simpl. apply Nat.eqb_neq in Hw. by rewrite Hw.
  - destruct (channels_first_nhwc a n h w Hshape) as (b & Hb & Hbshape & _).
    exists b. split; [done|]. unfold YOLOPipeline._make_channels_first.
    rewrite Hbshape. simpl. apply Nat.eqb_neq in Hw. by rewrite Hw.
Qed.

End EndToEnd.

(** ** Engine outputs *)
Section Outputs.
Context `{CConversion} `{Host}.

(** X10: on a constructed pipeline whose flag is true,
    [process_engine_outputs] reads the first engine output only: without
    any output it raises [IndexError], and the outputs after the first
    have no effect on the result. *)
Theorem postprocessed_reads_first_output cn cfg m (p : YOLOPipeline.t)
    (kwargs : gmap string spec_float) :
  YOLOPipeline.__init__ cn cfg m = Ok p ->
  YOLOPipeline.has_postprocessing p = true ->
  YOLOPipeline.process_engine_outputs p [] kwargs = Raise IndexError /\
  forall o rest,
    YOLOPipeline.process_engine_outputs p (o :: rest) kwargs =
    YOLOPipeline.process_engine_outputs p [o] kwargs.
Proof.
  intros Hinit Hflag. apply init_postprocessor in Hinit.
  rewrite Hflag in Hinit.
  unfold YOLOPipeline.process_engine_outputs, YOLOPipeline.select_batch_output.
  rewrite Hinit. split; reflexivity.
Qed.

Lemma column_out_of_range a j :
  (ncols a <= j)%nat -> column a j = Raise IndexError.
Proof.
  intros Hj. unfold column. apply Nat.ltb_ge in Hj. by rewrite Hj.
Qed.

Lemma serialize_image_narrow (p : YOLOPipeline.t) a :
  (ncols a < 6)%nat -> YOLOPipeline.serialize_image p a = Raise IndexError.
Proof.
  intros Hcols. unfold YOLOPipeline.serialize_image.
  destruct (decide (4 < ncols a)%nat).
  - rewrite (column_Ok a 4), (column_out_of_range a 5) by lia. reflexivity.
  - rewrite (column_out_of_range a 4) by lia. reflexivity.
Qed.

(** X11: when the first post-NMS array that cannot be serialized has
    fewer than six columns, [process_engine_outputs] raises [IndexError],
    whether or not the array holds any detection. *)
Theorem too_few_columns_raises (p : YOLOPipeline.t) (engine_outputs : list ndarray)
    (kwargs : gmap string spec_float) batch before a after :
  YOLOPipeline.select_batch_output p engine_outputs = Ok batch ->
  postprocess_nms batch (dict_get kwargs "iou_thres" YOLOPipeline.float_0_25)
                  (dict_get kwargs "conf_thres" YOLOPipeline.float_0_45) =
    Ok (before ++ a :: after) ->
  Forall (labelled p) before ->
  (ncols a < 6)%nat ->
  YOLOPipeline.process_engine_outputs p engine_outputs kwargs = Raise IndexError.
Proof.
  intros Hbatch Hnms Hbefore Hcols.
  unfold YOLOPipeline.process_engine_outputs. rewrite Hbatch. cbn.
  unfold YOLOPipeline.serialize_batch. rewrite Hnms. cbn.
  rewrite (traverse_Raise_first _ before after a IndexError); [reflexivity| |].
  - eapply Forall_impl; [exact Hbefore|].
    intros a' Ha'. by destruct (serialize_image_total p a' Ha') as [r ->].
  - by apply serialize_image_narrow.
Qed.

End Outputs.

Section OutputsExamples.
#[local] Existing Instances Sample.conversion.

Lemma postprocessed_reads_first_output_witness :
  exists p : @YOLOPipeline.t Sample.host,
    YOLOPipeline.__init__ (CNDict Sample.names) None Sample.quantized_model = Ok p /\
    YOLOPipeline.process_engine_outputs p [] ∅ = Raise IndexError /\
    YOLOPipeline.process_engine_outputs p [Sample.pixels; Sample.pixel_batch] ∅ =
      YOLOPipeline.process_engine_outputs p [Sample.pixels] ∅.
Proof.
  eexists. split; [reflexivity|].
  destruct (postprocessed_reads_first_output (H0 := Sample.host)
              (CNDict Sample.names) None Sample.quantized_model _ ∅ eq_refl eq_refl)
    as [Hempty Hfirst].
  split; [exact Hempty | apply Hfirst].
Defined.

Lemma too_few_columns_raises_witness :
  exists p : @YOLOPipeline.t Sample.narrow_host,
    YOLOPipeline.__init__ (CNDict Sample.names) None Sample.single_output_model = Ok p /\
    YOLOPipeline.process_engine_outputs p [Sample.pixels] ∅ = Raise IndexError.
Proof.
  eexists. split; [reflexivity|].
  apply (too_few_columns_raises (H0 := Sample.narrow_host) _ [Sample.pixels] ∅
           Sample.pixels [] {| ncols := 5; rows := [] |} []).
  - reflexivity.
  - reflexivity.
  - constructor.
  - simpl. lia.
Defined.

End OutputsExamples.

(** ** Tokens beyond the declared names *)
Section ExtraTokens.
Context {A : Type}.

(** X12: arrays under names the model does not declare are ignored: when
    [tokens_to_engine_input] returns on a mapping, it returns the same
    list, one array per declared name, on every mapping that extends
    it. *)
Theorem tokens_to_engine_input_extra_keys (self : TransformersPipeline.t)
    (tokens tokens' : gmap string A) arrays :
  tokens ⊆ tokens' ->
  TransformersPipeline.tokens_to_engine_input self tokens = Ok arrays ->
  TransformersPipeline.tokens_to_engine_input self tokens' = Ok arrays /\
  exists names, TransformersPipeline.onnx_input_names self = Some names /\
                length arrays = length names.
Proof.
  intros Hsub. unfold TransformersPipeline.tokens_to_engine_input.
  destruct (TransformersPipeline.onnx_input_names self) as [names|]; [|discriminate].
  destruct (forallb _ names) eqn:Hall; simpl; [|discriminate].
  intros Harrays. apply traverse_Ok_Forall2 in Harrays.
  assert (Forall2 (fun name a => dict_getitem tokens' name = Ok a) names arrays)
    as Harrays'.
  { eapply Forall2_impl; [exact Harrays|]. intros name a Ha.
    apply dict_getitem_Ok. apply dict_getitem_Ok in Ha.
    by eapply lookup_weaken. }
  assert (forallb (fun name => bool_decide (is_Some (tokens' !! name))) names = true)
    as ->.
  { apply all_present_spec. intros name Hin.
    pose proof (proj1 (all_present_spec names tokens) Hall name Hin) as [a Ha].
    exists a. by eapply lookup_weaken. }
  simpl. split.
  - by apply traverse_Ok_Forall2.
  - exists names. split; [done|]. symmetry. eapply Forall2_length, Harrays.
Qed.

End ExtraTokens.

Lemma tokens_to_engine_input_extra_keys_witness :
  TransformersPipeline.tokens_to_engine_input Sample.bert
    (<["token_type_ids" := [0; 0; 0]]> Sample.tokens) =
    Ok [[101; 7592; 102]; [1; 1; 1]].
Proof.
  apply (tokens_to_engine_input_extra_keys Sample.bert Sample.tokens).
  - apply insert_subseteq. reflexivity.
  - reflexivity.
Defined.

Section AssemblyExamples.
#[local] Existing Instances Sample.conversion Sample.host.

Lemma make_batch_raises_witness :
  raises (YOLOPipeline._make_batch
            [Sample.pixels; c_array uint8 [3; 1; 1]%nat (Int <$> [1; 2; 3])]) = true.
Proof.
  apply (proj1 (make_batch_raises _)). right.
  exists Sample.pixels, [c_array uint8 [3; 1; 1]%nat (Int <$> [1; 2; 3])],
    (c_array uint8 [3; 1; 1]%nat (Int <$> [1; 2; 3])).
  split; [reflexivity|]. split; [left | discriminate].
Defined.


Lemma process_inputs_kwargs_witness :
  exists (p : YOLOPipeline.t),
    YOLOPipeline.__init__ (CNDict Sample.names) None Sample.quantized_model = Ok p /\
    exists batches kwargs,
      YOLOPipeline.process_inputs p (Sample.inputs [YOLOPipeline.ImgPath "cat.png"]) =
        Ok (batches, kwargs) /\
      dict_get kwargs "iou_thres" (S754_zero false) = YOLOPipeline.float_0_25 /\
      dom kwargs = ({["iou_thres"; "conf_thres"]} : gset string).
Proof.
  eexists. split; [reflexivity|].
  lazymatch goal with
  | |- exists batches kwargs, YOLOPipeline.process_inputs ?p ?i = _ /\ _ =>
      destruct (YOLOPipeline.process_inputs p i) as [[batches kwargs]|e] eqn:Hproc;
        [destruct (process_inputs_kwargs p i batches kwargs Hproc)
           as (Hiou & _ & Hdom)
        | vm_compute in Hproc; discriminate]
  end.
  exists batches, kwargs. split; [reflexivity|]. split; [apply Hiou | exact Hdom].
Defined.



Lemma make_channels_first_view_witness :
  exists b, YOLOPipeline._make_channels_first Sample.pixels = Ok b /\
    data b = data Sample.pixels /\ offset b = offset Sample.pixels /\
    dtype_of b = dtype_of Sample.pixels /\ shape b ≡ₚ shape Sample.pixels.
Proof. apply (make_channels_first_view Sample.pixels). discriminate. Defined.

Lemma make_channels_first_twice_witness :
  exists b, YOLOPipeline._make_channels_first Sample.pixels = Ok b /\
            YOLOPipeline._make_channels_first b = Ok b.
Proof.
  apply (make_channels_first_twice Sample.pixels 1 2); [lia | by left].
Defined.

End AssemblyExamples.
